(** * forte.data.ontology.core: entries, links and groups

    A shallow embedding of [Entry], [BaseLink] and [BaseGroup] of
    [forte/data/ontology/core.py].  Python objects live in a store and are
    passed by reference; an object is its class together with its instance
    dictionary ([__dict__]), a finite map from attribute names to values.
    Methods that mutate run in a state-and-exception monad over the store;
    methods that only read run in a reader-and-exception monad. *)

From Stdlib Require Import ZArith String Floats.
From stdpp Require Import gmap strings list.

Open Scope string_scope.
Open Scope list_scope.

(** ** Classes

    A class is known by its module and name.  [ty_bases] lists the qualified
    names of its proper ancestors in method-resolution order, and
    [ty_MemberType] is the class attribute [MemberType] of a group class
    ([BaseGroup] only annotates it, a concrete group class assigns it). *)

Record pytype := PyType {
  ty_module : string;
  ty_name : string;
  ty_bases : list string;
  ty_MemberType : option string
}.

#[export] Instance pytype_eq_dec : EqDecision pytype.
Proof. solve_decision. Defined.

Definition qualname (c : pytype) : string :=
  ty_module c +:+ "." +:+ ty_name c.

Definition mro (c : pytype) : list string := qualname c :: ty_bases c.

(** [issubclass c T]: the class named [T] is [c] or one of its ancestors. *)
Definition issubclass (c : pytype) (T : string) : bool :=
  bool_decide (T ∈ mro c).

(** What [str] of a class prints, as an f-string interpolates it. *)
Definition class_str (q : string) : string := "<class '" +:+ q +:+ "'>".

Definition builtin (name : string) : pytype := PyType "builtins" name [] None.

Definition type_str (c : pytype) : string :=
  if decide (ty_module c = "builtins") then class_str (ty_name c)
  else class_str (qualname c).

Definition Entry_qn : string := "forte.data.ontology.core.Entry".
Definition BaseLink_qn : string := "forte.data.ontology.core.BaseLink".
Definition BaseGroup_qn : string := "forte.data.ontology.core.BaseGroup".

(** ** Values and objects

    References are addresses into the store.  A Python [set] is kept as the
    list of its keys in the order its hash table yields them (what [tuple(s)]
    and a [for] loop see); equality of sets ignores that order.  A numpy
    vector is modelled in the domain the [embedding] setter documents, a
    one-dimensional array of floats; [tolist] turns it into a plain list of
    Python floats. *)

Abbreviation addr := nat.

Inductive value :=
| VNone
| VInt (n : Z)
| VStr (s : string)
| VFloatList (l : list float)
| VNdarray (a : list float)
| VIntSet (s : list Z)
| VStrSet (s : list string)
| VEntry (a : addr)
| VPack (l : addr).

Record object := Obj {
  obj_type : pytype;
  obj_dict : gmap string value
}.

(** ** Exceptions *)

Inductive exn :=
| AttributeError (msg : string)
| TypeError (msg : string)
| ValueError (msg : string)
| KeyError (key : string)
| PackError (msg : string)
| Unmodelled (what : string).

Inductive result (A : Type) :=
| Ok (a : A)
| Raise (e : exn).
Arguments Ok {A} a.
Arguments Raise {A} e.

#[export] Instance result_ret : MRet result := fun A a => Ok a.
#[export] Instance result_bind : MBind result := fun A B f r =>
  match r with Ok a => f a | Raise e => Raise e end.
#[export] Instance result_fmap : FMap result := fun A B f r =>
  match r with Ok a => Ok (f a) | Raise e => Raise e end.

(** The message of the interpreter's own [AttributeError]. *)
Definition no_attribute (tyname attr : string) : string :=
  "'" +:+ tyname +:+ "' object has no attribute '" +:+ attr +:+ "'".

(** ** The owning container

    Modelled from the spec: the container class ([forte.data.container]) is
    imported by the source but is not part of it.  Its interface is the one
    the specification lists as required from the container: identity
    allocation, admission validation (a rejection is an exception), the two
    append-only audits, and resolution of an id to an entry. *)

Class Container (P : Type) := {
  container_type : pytype;
  get_next_id : P → Z * P;
  validate : object → P → result unit;
  add_entry_creation_record : Z → P → P;
  add_field_record : Z → string → P → P;
  get_entry : Z → P → result addr
}.

(** ** What the interpreter decides

    The hash of a class, of an [int] and of a tuple (from the hashes of its
    items) are the interpreter's; so is the slot a new key takes in the hash
    table behind a [set], hence the iteration order of the set.  The only
    thing known of [set_place x l], for a key [x] not in [l], is that it
    yields the keys of [l] and [x] in some order. *)

Class Hashing := {
  hash_type : pytype → Z;
  hash_int : Z → Z;
  hash_none : Z;
  hash_tuple : list Z → Z
}.

Class SetOrder := {
  set_place : ∀ {A : Type}, A → list A → list A;
  set_place_perm : ∀ (A : Type) (x : A) (l : list A), set_place x l ≡ₚ x :: l
}.

(** [s.add(x)] on a set of ints. *)
Definition pyset_add `{SetOrder} (x : Z) (s : list Z) : list Z :=
  if decide (x ∈ s) then s else set_place x s.

(** [s == t] on sets of ints: same size, and every key of [s] is in [t]. *)
Definition pyset_eq (s t : list Z) : bool :=
  bool_decide (length s = length t) && bool_decide (s ⊆ t).

(** ** The store and the two monads *)

Record store (P : Type) := Store {
  entries : gmap addr object;
  packs : gmap addr P
}.
Arguments Store {P} _ _.
Arguments entries {P} _.
Arguments packs {P} _.

Definition R (P A : Type) : Type := store P → result A.
Definition M (P A : Type) : Type := store P → result A * store P.

#[export] Instance R_ret {P} : MRet (R P) := fun A a _ => Ok a.
#[export] Instance R_bind {P} : MBind (R P) := fun A B f r σ =>
  match r σ with Ok a => f a σ | Raise e => Raise e end.
#[export] Instance M_ret {P} : MRet (M P) := fun A a σ => (Ok a, σ).
#[export] Instance M_bind {P} : MBind (M P) := fun A B f m σ =>
  match m σ with (Ok a, σ') => f a σ' | (Raise e, σ') => (Raise e, σ') end.

Definition raiseR {P A} (e : exn) : R P A := fun _ => Raise e.
Definition raise {P A} (e : exn) : M P A := fun σ => (Raise e, σ).
Definition read {P A} (r : R P A) : M P A := fun σ => (r σ, σ).
Definition liftR {P A} (r : result A) : R P A := fun _ => r.

Section Objects.
Context {P : Type} `{!Container P}.

(** The object a reference designates.  A dangling reference cannot arise in
    Python; the model flags it. *)
Definition deref (a : addr) : R P object := fun σ =>
  match entries σ !! a with
  | Some o => Ok o
  | None => Raise (Unmodelled "dangling reference")
  end.

(** [type(v)]. *)
Definition type_of (v : value) : R P pytype :=
  match v with
  | VNone => mret (builtin "NoneType")
  | VInt _ => mret (builtin "int")
  | VStr _ => mret (builtin "str")
  | VFloatList _ => mret (builtin "list")
  | VNdarray _ => mret (PyType "numpy" "ndarray" [] None)
  | VIntSet _ | VStrSet _ => mret (builtin "set")
  | VEntry a => o ← deref a; mret (obj_type o)
  | VPack _ => mret container_type
  end.

(** [vars(self)]: the instance dictionary. *)
Definition vars (self : addr) : R P (gmap string value) :=
  o ← deref self; mret (obj_dict o).

(** Reading an instance attribute that no property shadows, [self.name]. *)
Definition load_attr (self : addr) (name : string) : R P value :=
  o ← deref self;
  match obj_dict o !! name with
  | Some v => mret v
  | None => raiseR (AttributeError (no_attribute (ty_name (obj_type o)) name))
  end.

(** Binding [name] in the instance dictionary, [self.__dict__[name] = v]. *)
Definition store_attr (self : addr) (name : string) (v : value) : M P unit :=
  fun σ =>
  match entries σ !! self with
  | Some o =>
      (Ok tt, Store (<[self := Obj (obj_type o) (<[name := v]> (obj_dict o))]> (entries σ))
                    (packs σ))
  | None => (Raise (Unmodelled "dangling reference"), σ)
  end.

(** The container a method call [pack.method(...)] is sent to: [pack] must
    be a container, anything else has no such method. *)
Definition receiver (pack : value) (method : string) : R P addr := fun σ =>
  match pack with
  | VPack l =>
      match packs σ !! l with
      | Some _ => Ok l
      | None => Raise (Unmodelled "dangling reference")
      end
  | _ =>
      match type_of pack σ with
      | Ok c => Raise (AttributeError (no_attribute (ty_name c) method))
      | Raise e => Raise e
      end
  end.

(** Running a state change of the container at [l]. *)
Definition on_pack {A} (l : addr) (f : P → A * P) : M P A := fun σ =>
  match packs σ !! l with
  | Some p => let '(a, p') := f p in (Ok a, Store (entries σ) (<[l := p']> (packs σ)))
  | None => (Raise (Unmodelled "dangling reference"), σ)
  end.

(** Asking the container at [l] without changing it. *)
Definition ask_pack {A} (l : addr) (f : P → result A) : R P A := fun σ =>
  match packs σ !! l with
  | Some p => f p
  | None => Raise (Unmodelled "dangling reference")
  end.

(** The annotation [_tid: int]: an id handed to the container or compared
    is an integer. *)
Definition as_int (v : value) : R P Z :=
  match v with
  | VInt n => mret n
  | _ => raiseR (Unmodelled "an id that is not an int")
  end.

End Objects.

(** ** numpy, as far as the source uses it *)

(** [np.empty(0)]. *)
Definition np_empty0 : value := VNdarray [].

(** [np.array(v)] on the inputs the [embedding] setter documents: an array
    of floats or a list of floats. *)
Definition np_array {P} (v : value) : R P value :=
  match v with
  | VNdarray a => mret (VNdarray a)
  | VFloatList l => mret (VNdarray l)
  | _ => raiseR (Unmodelled "np.array of something else than floats")
  end.

(** ** dict operations *)

(** [d.pop(k)]. *)
Definition dict_pop {P} (k : string) (d : gmap string value) : R P (gmap string value) :=
  match d !! k with
  | Some _ => mret (delete k d)
  | None => raiseR (KeyError k)
  end.

(** [d[k]]. *)
Definition dict_get {P} (k : string) (d : gmap string value) : R P value :=
  match d !! k with
  | Some v => mret v
  | None => raiseR (KeyError k)
  end.

(** * Entry *)

Module Entry.
Section Entry.
Context {P : Type} `{!Container P} `{!Hashing}.

(** [record_creation]: [self.__pack.add_entry_creation_record(self._tid)]. *)
Definition record_creation (self : addr) : M P unit :=
  pk ← read (load_attr self "_Entry__pack");
  l ← read (receiver pk "add_entry_creation_record");
  t ← read (load_attr self "_tid" ≫= as_int);
  on_pack l (fun p => (tt, add_entry_creation_record t p)).

(** [__init__(self, pack)]. *)
Definition __init__ (self : addr) (pack : value) : M P unit :=
  l ← read (receiver pack "get_next_id");
  t ← on_pack l get_next_id;
  store_attr self "_tid" (VInt t);;
  store_attr self "_embedding" np_empty0;;
  store_attr self "_Entry__pack" pack;;
  store_attr self "_Entry__field_modified" (VStrSet []);;
  l' ← read (receiver pack "validate");
  o ← read (deref self);
  read (ask_pack l' (validate o));;
  record_creation self.

(** [reset]: [self.__init__(self.__pack)].  The call is dispatched on the
    class of [self]; [init] is the [__init__] it reaches. *)
Definition reset (init : addr → value → M P unit) (self : addr) : M P unit :=
  pk ← read (load_attr self "_Entry__pack");
  init self pk.

(** [self._embedding.tolist()]. *)
Definition tolist (v : value) : R P value :=
  match v with
  | VNdarray a => mret (VFloatList a)
  | _ => c ← type_of v; raiseR (AttributeError (no_attribute (ty_name c) "tolist"))
  end.

(** [__getstate__]: a copy of the instance dictionary with the embedding as
    a list and without the container and the modified-field set. *)
Definition __getstate__ (self : addr) : R P (gmap string value) :=
  state ← vars self;
  emb ← load_attr self "_embedding";
  l ← tolist emb;
  state ← dict_pop "_Entry__pack" (<["_embedding" := l]> state);
  dict_pop "_Entry__field_modified" state.

(** [self.__dict__.update(state)]: the bindings of [state] win. *)
Definition dict_update (self : addr) (state : gmap string value) : M P unit :=
  fun σ =>
  match entries σ !! self with
  | Some o =>
      (Ok tt, Store (<[self := Obj (obj_type o) (state ∪ obj_dict o)]> (entries σ))
                    (packs σ))
  | None => (Raise (Unmodelled "dangling reference"), σ)
  end.

(** [__setstate__(self, state)]. *)
Definition __setstate__ (self : addr) (state : gmap string value) : M P unit :=
  store_attr self "_Entry__field_modified" (VStrSet []);;
  e ← read (dict_get "_embedding" state);
  a ← read (np_array e);
  dict_update self (<["_embedding" := a]> state).

(** The [embedding] property: getter and setter. *)
Definition embedding (self : addr) : R P value := load_attr self "_embedding".

Definition set_embedding (self : addr) (embed : value) : M P unit :=
  a ← read (np_array embed);
  store_attr self "_embedding" a.

(** The read-only properties [tid], [pack] and [index_key]. *)
Definition tid (self : addr) : R P value := load_attr self "_tid".
Definition pack (self : addr) : R P value := load_attr self "_Entry__pack".
Definition index_key (self : addr) : R P value := load_attr self "_tid".

(** [set_pack]. *)
Definition set_pack (self : addr) (pack : value) : M P unit :=
  store_attr self "_Entry__pack" pack.

(** The names a class of the source defines as properties without a setter:
    those of [Entry], and [members] of [BaseGroup]. *)
Definition read_only_properties (c : pytype) : list string :=
  ["tid"; "pack"; "pack_id"; "index_key"] ++
  (if issubclass c BaseGroup_qn then ["members"] else []).

(** [setattr(self, name, v)]: a property of the class takes the assignment
    when there is one, the instance dictionary otherwise. *)
Definition setattr (self : addr) (name : string) (v : value) : M P unit :=
  o ← read (deref self);
  if decide (name = "embedding") then set_embedding self v
  else if decide (name ∈ read_only_properties (obj_type o))
  then raise (AttributeError "can't set attribute")
  else store_attr self name v.

(** The message of the error [set_fields] raises. *)
Definition unknown_field_msg (c : pytype) (field_name : string) : string :=
  "The entry type [" +:+ type_str c +:+ "] does not have an attribute: '"
  +:+ field_name +:+ "'.".

(** The body of the loop of [set_fields], for one keyword argument. *)
Definition set_field (self : addr) (field_name : string) (field_value : value) : M P unit :=
  d ← read (vars self);
  (if decide (field_name ∈ dom d)
   then setattr self field_name field_value
   else c ← read (type_of (VEntry self));
        raise (AttributeError (unknown_field_msg c field_name)));;
  pk ← read (load_attr self "_Entry__pack");
  l ← read (receiver pk "add_field_record");
  t ← read (tid self ≫= as_int);
  on_pack l (fun p => (tt, add_field_record t field_name p)).

(** [set_fields(self, **kwargs)]; the keyword arguments in call order. *)
Fixpoint set_fields (self : addr) (kwargs : list (string * value)) : M P unit :=
  match kwargs with
  | [] => mret tt
  | (field_name, field_value) :: rest =>
      set_field self field_name field_value;;
      set_fields self rest
  end.

(** [other.tid] for an arbitrary [other]. *)
Definition dot_tid (other : value) : R P value :=
  match other with
  | VEntry b => tid b
  | _ => c ← type_of other; raiseR (AttributeError (no_attribute (ty_name c) "tid"))
  end.

(** [__eq__]. *)
Definition __eq__ (self : addr) (other : value) : R P bool :=
  match other with
  | VNone => mret false
  | _ =>
      c ← type_of (VEntry self);
      t ← load_attr self "_tid" ≫= as_int;
      c' ← type_of other;
      t' ← dot_tid other ≫= as_int;
      mret (bool_decide (c = c') && bool_decide (t = t'))
  end.

(** [__hash__]: [hash((type(self), self._tid))]. *)
Definition __hash__ (self : addr) : R P Z :=
  c ← type_of (VEntry self);
  t ← load_attr self "_tid" ≫= as_int;
  mret (hash_tuple [hash_type c; hash_int t]).

End Entry.
End Entry.

(** ** Comparing and hashing the items of a tuple or a set

    A tuple compares its items, and a set its keys, with the identity test
    first and [==] second.  Identity is the identity of references; for the
    other values, which the source never shares, it is left to [==]. *)

Definition is_ (v w : value) : bool :=
  match v, w with
  | VNone, VNone => true
  | VEntry a, VEntry b => bool_decide (a = b)
  | VPack a, VPack b => bool_decide (a = b)
  | _, _ => false
  end.

Definition item_eq {P} (py_eq : value → value → R P bool) (v w : value) : R P bool :=
  if is_ v w then mret true else py_eq v w.

(** * BaseLink *)

(** The four abstract methods, which a concrete link class implements. *)
Class LinkImpl (P : Type) := {
  set_parent : addr → value → M P unit;
  set_child : addr → value → M P unit;
  get_parent : addr → R P value;
  get_child : addr → R P value
}.

Module BaseLink.
Section BaseLink.
Context {P : Type} `{!Container P} `{!Hashing} `{!LinkImpl P}.

(** [==] and [hash] of the interpreter on the endpoints, which dispatch on
    the endpoint's class. *)
Variable py_eq : value → value → R P bool.
Variable py_hash : value → R P Z.

(** What the zero-argument [super()] of [BaseLink.__init__], that is
    [super(BaseLink, self)], raises on a receiver that is no link. *)
Definition super_msg : string :=
  "super(type, obj): obj must be an instance or subtype of type".

(** [__init__(self, pack, parent=None, child=None)]: [super()] takes only
    an instance of [BaseLink]; then the constructor of an entry runs and
    the endpoints that are given are set. *)
Definition __init__ (self : addr) (pack parent child : value) : M P unit :=
  c ← read (type_of (VEntry self));
  (if issubclass c BaseLink_qn then mret tt else raise (TypeError super_msg));;
  Entry.__init__ self pack;;
  (match parent with VNone => mret tt | _ => set_parent self parent end);;
  (match child with VNone => mret tt | _ => set_child self child end).

(** [other.get_parent()] and [other.get_child()] for an arbitrary [other]:
    only a link has the method. *)
Definition dot_get (method : string) (get : addr → R P value) (other : value) : R P value :=
  c ← type_of other;
  match other with
  | VEntry b =>
      if issubclass c BaseLink_qn then get b
      else raiseR (AttributeError (no_attribute (ty_name c) method))
  | _ => raiseR (AttributeError (no_attribute (ty_name c) method))
  end.

(** [__eq__]: both triples are built, then compared item by item up to the
    first difference. *)
Definition __eq__ (self : addr) (other : value) : R P bool :=
  match other with
  | VNone => mret false
  | _ =>
      c ← type_of (VEntry self);
      p ← get_parent self;
      ch ← get_child self;
      c' ← type_of other;
      p' ← dot_get "get_parent" get_parent other;
      ch' ← dot_get "get_child" get_child other;
      if negb (bool_decide (c = c')) then mret false
      else same ← item_eq py_eq p p';
           if negb same then mret false else item_eq py_eq ch ch'
  end.

(** [__hash__]: [hash((type(self), self.get_parent(), self.get_child()))]. *)
Definition __hash__ (self : addr) : R P Z :=
  c ← type_of (VEntry self);
  p ← get_parent self;
  ch ← get_child self;
  hp ← py_hash p;
  hc ← py_hash ch;
  mret (hash_tuple [hash_type c; hp; hc]).

Definition index_key (self : addr) : R P value := Entry.tid self.

End BaseLink.
End BaseLink.

(** * BaseGroup *)

Module BaseGroup.
Section BaseGroup.
Context {P : Type} `{!Container P} `{!Hashing} `{!SetOrder}.

Variable py_eq : value → value → R P bool.
Variable py_hash : value → R P Z.

(** The message of the error [add_members] raises. *)
Definition member_type_msg (c : pytype) (T : string) (cm : pytype) : string :=
  "The members of " +:+ type_str c +:+ " should be instances of "
  +:+ class_str T +:+ ", but got " +:+ type_str cm.

(** [self.MemberType], a class attribute. *)
Definition MemberType (self : addr) : R P string :=
  c ← type_of (VEntry self);
  match ty_MemberType c with
  | Some T => mret T
  | None => raiseR (AttributeError (no_attribute (ty_name c) "MemberType"))
  end.

(** [self._members.add(member.tid)]. *)
Definition members_add (self : addr) (member : value) : M P unit :=
  s ← read (load_attr self "_members");
  match s with
  | VIntSet l =>
      t ← read (Entry.dot_tid member ≫= as_int);
      store_attr self "_members" (VIntSet (pyset_add t l))
  | _ => raise (Unmodelled "a member set that is not a set of ints")
  end.

(** The body of the loop of [add_members], for one member. *)
Definition add_one (self : addr) (member : value) : M P unit :=
  T ← read (MemberType self);
  cm ← read (type_of member);
  (if issubclass cm T then mret tt
   else c ← read (type_of (VEntry self));
        raise (TypeError (member_type_msg c T cm)));;
  members_add self member.

(** [add_members(self, members)]. *)
Fixpoint add_members (self : addr) (members : list value) : M P unit :=
  match members with
  | [] => mret tt
  | member :: rest => add_one self member;; add_members self rest
  end.

(** [add_member(self, member)]. *)
Definition add_member (self : addr) (member : value) : M P unit :=
  add_members self [member].

(** [__init__(self, pack, members=None)]. *)
Definition __init__ (self : addr) (pack : value) (members : option (list value)) : M P unit :=
  Entry.__init__ self pack;;
  store_attr self "_members" (VIntSet []);;
  match members with
  | Some ms => add_members self ms
  | None => mret tt
  end.

(** The [members] property. *)
Definition members (self : addr) : R P value := load_attr self "_members".

(** [tuple(self.members)] as a list of ints. *)
Definition members_tuple (self : addr) : R P (list Z) :=
  s ← members self;
  match s with
  | VIntSet l => mret l
  | _ => raiseR (Unmodelled "a member set that is not a set of ints")
  end.

(** [__hash__]: [hash((type(self), tuple(self.members)))]. *)
Definition __hash__ (self : addr) : R P Z :=
  c ← type_of (VEntry self);
  l ← members_tuple self;
  mret (hash_tuple [hash_type c; hash_tuple (hash_int <$> l)]).

(** [other.members] for an arbitrary [other]: only a group has the
    property. *)
Definition dot_members (other : value) : R P (list Z) :=
  c ← type_of other;
  match other with
  | VEntry b =>
      if issubclass c BaseGroup_qn then members_tuple b
      else raiseR (AttributeError (no_attribute (ty_name c) "members"))
  | _ => raiseR (AttributeError (no_attribute (ty_name c) "members"))
  end.

(** [__eq__]. *)
Definition __eq__ (self : addr) (other : value) : R P bool :=
  match other with
  | VNone => mret false
  | _ =>
      c ← type_of (VEntry self);
      s ← members_tuple self;
      c' ← type_of other;
      s' ← dot_members other;
      mret (bool_decide (c = c') && pyset_eq s s')
  end.

(** [s.add(x)] on a set of objects, kept as the list of its keys with their
    hashes: [x] is already there when a key with the same hash is [x] itself
    or equal to it. *)
Fixpoint objset_find (h : Z) (x : value) (s : list (Z * value)) : R P bool :=
  match s with
  | [] => mret false
  | (h', k) :: rest =>
      if bool_decide (h' = h)
      then same ← (item_eq py_eq k x : R P bool);
           if same : bool then mret true else objset_find h x rest
      else objset_find h x rest
  end.

Definition objset_add (x : value) (s : list (Z * value)) : R P (list (Z * value)) :=
  h ← py_hash x;
  found ← objset_find h x s;
  mret (if found : bool then s else set_place (h, x) s).

Definition unattached_msg : string :=
  "Cannot get members because group is not attached to any data pack.".

(** The loop of [get_members]. *)
Fixpoint resolve_members (self : addr) (ms : list Z) (member_entries : list (Z * value))
  : R P (list (Z * value)) :=
  match ms with
  | [] => mret member_entries
  | m :: rest =>
      pk ← Entry.pack self;
      l ← receiver pk "get_entry";
      e ← ask_pack l (get_entry m);
      member_entries ← objset_add (VEntry e) member_entries;
      resolve_members self rest member_entries
  end.

(** [get_members(self)]. *)
Definition get_members (self : addr) : R P (list (Z * value)) :=
  pk ← Entry.pack self;
  match pk with
  | VNone => raiseR (ValueError unattached_msg)
  | _ =>
      ms ← members_tuple self;
      resolve_members self ms []
  end.

Definition index_key (self : addr) : R P value := Entry.tid self.

End BaseGroup.
End BaseGroup.

(** * Method dispatch

    [==], [hash] and [__init__] reach the method of the class of the object.
    The classes of the source are told apart by their ancestors; a concrete
    class is taken to inherit the three methods.  [==] and [hash] of a link
    call themselves on the endpoints, so they carry a bound on the nesting
    of links. *)

Inductive kind := KEntry | KLink | KGroup.

#[export] Instance kind_eq_dec : EqDecision kind.
Proof. solve_decision. Defined.

Definition kind_of (c : pytype) : kind :=
  if issubclass c BaseLink_qn then KLink
  else if issubclass c BaseGroup_qn then KGroup
  else KEntry.

Section Dispatch.
Context {P : Type} `{!Container P} `{!Hashing} `{!SetOrder} `{!LinkImpl P}.

(** [a.__eq__(other)]. *)
Definition eq_method (py_eq : value → value → R P bool) (a : addr) (other : value)
  : R P bool :=
  c ← type_of (VEntry a);
  match kind_of c with
  | KLink => BaseLink.__eq__ py_eq a other
  | KGroup => BaseGroup.__eq__ a other
  | KEntry => Entry.__eq__ a other
  end.

(** [==] between two values that are not entries. *)
Definition prim_eq (v w : value) : R P bool :=
  match v, w with
  | VNone, VNone => mret true
  | VInt m, VInt n => mret (bool_decide (m = n))
  | VStr s, VStr t => mret (bool_decide (s = t))
  | VIntSet s, VIntSet t => mret (pyset_eq s t)
  | VPack a, VPack b => mret (bool_decide (a = b))
  | VFloatList _, _ | _, VFloatList _ | VNdarray _, _ | _, VNdarray _
  | VStrSet _, _ | _, VStrSet _ =>
      raiseR (Unmodelled "== on lists, arrays and sets of strings")
  | _, _ => mret false
  end.

(** The right operand is asked first when its class is a proper subclass of
    the left operand's class with another [__eq__]. *)
Definition reflected_first (ca cb : pytype) : bool :=
  bool_decide (qualname ca ∈ ty_bases cb) && negb (bool_decide (kind_of ca = kind_of cb)).

(** [v == w]. *)
Fixpoint py_eq (fuel : nat) (v w : value) : R P bool :=
  match fuel with
  | O => raiseR (Unmodelled "links nested deeper than the bound")
  | S n =>
      match v, w with
      | VEntry a, VEntry b =>
          ca ← type_of v;
          cb ← type_of w;
          if reflected_first ca cb then eq_method (py_eq n) b v
          else eq_method (py_eq n) a w
      | VEntry a, _ => eq_method (py_eq n) a w
      | _, VEntry b => eq_method (py_eq n) b v
      | _, _ => prim_eq v w
      end
  end.

(** [hash(v)]. *)
Fixpoint py_hash (fuel : nat) (v : value) : R P Z :=
  match fuel with
  | O => raiseR (Unmodelled "links nested deeper than the bound")
  | S n =>
      match v with
      | VEntry a =>
          c ← type_of v;
          match kind_of c with
          | KLink => BaseLink.__hash__ (py_hash n) a
          | KGroup => BaseGroup.__hash__ a
          | KEntry => Entry.__hash__ a
          end
      | VInt z => mret (hash_int z)
      | VNone => mret hash_none
      | VFloatList _ => raiseR (TypeError "unhashable type: 'list'")
      | VIntSet _ | VStrSet _ => raiseR (TypeError "unhashable type: 'set'")
      | VNdarray _ => raiseR (TypeError "unhashable type: 'numpy.ndarray'")
      | VStr _ | VPack _ => raiseR (Unmodelled "hash of a string or of a container")
      end
  end.

(** [self.__init__(pack)], as [reset] and [cls(pack)] call it: the
    constructor of the class of [self]. *)
Definition py_init (self : addr) (pack : value) : M P unit :=
  c ← read (type_of (VEntry self));
  match kind_of c with
  | KLink => BaseLink.__init__ self pack VNone VNone
  | KGroup => BaseGroup.__init__ self pack None
  | KEntry => Entry.__init__ self pack
  end.

Definition reset (self : addr) : M P unit := Entry.reset py_init self.

(** Creating an object: [cls.__new__(cls)] gives an object with an empty
    instance dictionary, at an address not in use. *)
Definition fresh_addr (σ : store P) : addr := fresh (dom (entries σ)).

Definition new (cls : pytype) : M P addr := fun σ =>
  let a := fresh_addr σ in
  (Ok a, Store (<[a := Obj cls ∅]> (entries σ)) (packs σ)).

(** [cls(pack)]: the new object is initialised by the [__init__] of its
    class, the one of [Entry], of [BaseLink] or of [BaseGroup]. *)
Definition construct (cls : pytype) (pack : value) : M P addr :=
  self ← new cls; py_init self pack;; mret self.

(** [cls(pack, parent, child)] for a link class and [cls(pack, members)]
    for a group class. *)
Definition construct_link (cls : pytype) (pack parent child : value) : M P addr :=
  self ← new cls; BaseLink.__init__ self pack parent child;; mret self.

Definition construct_group (cls : pytype) (pack : value) (members : option (list value))
  : M P addr :=
  self ← new cls; BaseGroup.__init__ self pack members;; mret self.

(** Serializing and deserializing through [__getstate__] and
    [__setstate__]: the new object is made without [__init__] and given the
    state. *)
Definition serialize (self : addr) : R P (pytype * gmap string value) :=
  c ← type_of (VEntry self);
  state ← Entry.__getstate__ self;
  mret (c, state).

Definition deserialize (snapshot : pytype * gmap string value) : M P addr :=
  self ← new snapshot.1;
  Entry.__setstate__ self snapshot.2;;
  mret self.

End Dispatch.

(** * A container, a link class and an interpreter to run the model on *)

(** Modelled from the spec: a container that allocates ids from a counter,
    refuses the classes named in [sp_refused] at validation, appends to its
    two audits and resolves ids through an index. *)
Record SimplePack := {
  sp_next_id : Z;
  sp_refused : list string;
  sp_creation_records : list Z;
  sp_field_records : list (Z * string);
  sp_index : gmap Z addr
}.

#[export] Instance simple_pack : Container SimplePack := {
  container_type := PyType "forte.data.container" "EntryContainer" [] None;
  get_next_id p :=
    (sp_next_id p,
     {| sp_next_id := sp_next_id p + 1; sp_refused := sp_refused p;
        sp_creation_records := sp_creation_records p;
        sp_field_records := sp_field_records p; sp_index := sp_index p |});
  validate o p :=
    if bool_decide (qualname (obj_type o) ∈ sp_refused p)
    then Raise (PackError "the container does not admit this entry")
    else Ok tt;
  add_entry_creation_record t p :=
    {| sp_next_id := sp_next_id p; sp_refused := sp_refused p;
       sp_creation_records := sp_creation_records p ++ [t];
       sp_field_records := sp_field_records p; sp_index := sp_index p |};
  add_field_record t name p :=
    {| sp_next_id := sp_next_id p; sp_refused := sp_refused p;
       sp_creation_records := sp_creation_records p;
       sp_field_records := sp_field_records p ++ [(t, name)]; sp_index := sp_index p |};
  get_entry t p :=
    match sp_index p !! t with
    | Some a => Ok a
    | None => Raise (PackError "no entry with this id")
    end
}.

(** The container adds an entry to its index. *)
Definition sp_add_entry (t : Z) (a : addr) (p : SimplePack) : SimplePack :=
  {| sp_next_id := sp_next_id p; sp_refused := sp_refused p;
     sp_creation_records := sp_creation_records p;
     sp_field_records := sp_field_records p; sp_index := <[t := a]> (sp_index p) |}.

(** Modelled from the spec: a link class that stores each endpoint by its
    id and resolves it through the owning container. *)
Section SimpleLink.
Context {P : Type} `{!Container P}.

Definition set_endpoint (field : string) (self : addr) (e : value) : M P unit :=
  t ← read (Entry.dot_tid e ≫= as_int);
  store_attr self field (VInt t).

Definition get_endpoint (field : string) (self : addr) : R P value :=
  t ← load_attr self field ≫= as_int;
  pk ← Entry.pack self;
  l ← receiver pk "get_entry";
  e ← ask_pack l (get_entry t);
  mret (VEntry e).

#[export] Instance simple_link : LinkImpl P := {
  set_parent := set_endpoint "_parent";
  set_child := set_endpoint "_child";
  get_parent := get_endpoint "_parent";
  get_child := get_endpoint "_child"
}.

End SimpleLink.

(** An interpreter whose sets put a new key after the keys already there.
    This is where the probe sequence of a hash table leads when the new key
    falls on an occupied slot and the next slot is free. *)
#[export] Program Instance probe_next : SetOrder := {
  set_place A x l := l ++ [x]
}.
Next Obligation. intros A x l. by rewrite Permutation_app_comm. Qed.

(** A hash to run examples with: tuples are hashed by a polynomial in the
    hashes of their items, so the order of the items counts. *)
#[export] Instance poly_hash : Hashing := {
  hash_type c := Z.of_nat (String.length (qualname c));
  hash_int n := n;
  hash_none := 0;
  hash_tuple l := foldl (fun acc h => 31 * acc + h + 1)%Z 7%Z l
}.


(** * States the theorems speak of *)

(** The object [Entry.__init__] leaves behind once its four attributes are
    bound: id [t], an empty embedding, the container and an empty set of
    modified fields. *)
Definition initialised (o : object) (t : Z) (pack : value) : object :=
  Obj (obj_type o)
    (<["_Entry__field_modified" := VStrSet []]>
       (<["_Entry__pack" := pack]>
          (<["_embedding" := np_empty0]>
             (<["_tid" := VInt t]> (obj_dict o))))).

(** The store after an attribute of the object at [self] is rebound. *)
Definition rebind {P} (self : addr) (o : object) (name : string) (v : value)
  (σ : store P) : store P :=
  Store (<[self := Obj (obj_type o) (<[name := v]> (obj_dict o))]> (entries σ)) (packs σ).

(** The class and the id of the object at an address, if there is one. *)
Definition identity_view {P} (σ : store P) (a : addr) : option (pytype * option value) :=
  (fun o => (obj_type o, obj_dict o !! "_tid")) <$> entries σ !! a.

(** A computation keeps the identities when the class and the id of every
    object are after it what they were before, however it ends. *)
Definition keeps_ids {P A} (m : M P A) : Prop :=
  ∀ σ a, identity_view (m σ).2 a = identity_view σ a.

(** The id under which a group whose member type is [T] takes a candidate:
    the candidate is an entry, an instance of [T], and has an id. *)
Definition accepted_id {P} (σ : store P) (T : string) (v : value) : option Z :=
  match v with
  | VEntry b =>
      match entries σ !! b with
      | Some m =>
          if issubclass (obj_type m) T
          then match obj_dict m !! "_tid" with Some (VInt t) => Some t | _ => None end
          else None
      | None => None
      end
  | _ => None
  end.

(** A run of [add_member] calls, one per candidate, each in the store the
    one before left, whether that one raised or returned. *)
Definition add_each {P} `{!Container P} `{!SetOrder} (self : addr) (candidates : list value)
  (σ : store P) : store P :=
  foldl (fun σ v => (BaseGroup.add_member self v σ).2) σ candidates.

(** A set of objects holds [x] when one of its keys is [x] itself or equal
    to it. *)
Definition holds {P} (eq_items : value → value → R P bool) (σ : store P)
  (s : list (Z * value)) (x : value) : Prop :=
  ∃ h k, (h, k) ∈ s ∧ item_eq eq_items k x σ = Ok true.

(** Unfolding the two monads in a goal. *)
Ltac unfold_monad :=
  unfold mbind, mret, R_bind, R_ret, M_bind, M_ret, read, raise, raiseR, liftR in *.

(** * A small world to run the model in

    One container, an entry class, a group class whose members are entries
    of that class, and a link class. *)

Module World.

Definition Token : pytype :=
  PyType "ft.onto.base_ontology" "Token" [Entry_qn] None.

Definition Sentence : pytype :=
  PyType "ft.onto.base_ontology" "Sentence" [Entry_qn] None.

Definition TokenGroup : pytype :=
  PyType "ft.onto.base_ontology" "TokenGroup" [BaseGroup_qn; Entry_qn]
    (Some (qualname Token)).

Definition Dependency : pytype :=
  PyType "ft.onto.base_ontology" "Dependency" [BaseLink_qn; Entry_qn] None.

(** A container that has handed out no id yet and admits every class but
    [Sentence]. *)
Definition pack0 : SimplePack :=
  {| sp_next_id := 0; sp_refused := [qualname Sentence];
     sp_creation_records := []; sp_field_records := []; sp_index := ∅ |}.

Definition the_pack : addr := 0.

Definition σ0 : store SimplePack := Store ∅ {[ the_pack := pack0 ]}.

(** The store a computation ends in, and the object at an address. *)
Definition after {A} (m : M SimplePack A) (σ : store SimplePack) : store SimplePack :=
  (m σ).2.

Definition object_at (σ : store SimplePack) (a : addr) : object :=
  default (Obj Token ∅) (entries σ !! a).

Definition pack_at (σ : store SimplePack) (l : addr) : SimplePack :=
  default pack0 (packs σ !! l).

(** The container indexes the entries at the given addresses by their
    ids. *)
Definition index_entry (a : addr) : M SimplePack unit :=
  t ← read (Entry.tid a ≫= as_int);
  on_pack the_pack (fun p => (tt, sp_add_entry t a p)).

(** Two tokens, with ids 0 and 1, at addresses 0 and 1. *)
Definition two_tokens : M SimplePack unit :=
  a ← construct Token (VPack the_pack);
  index_entry a;;
  b ← construct Token (VPack the_pack);
  index_entry b.

Definition σ_tokens : store SimplePack := after two_tokens σ0.

(** The first token gets an embedding of two floats. *)
Definition σ_embedded : store SimplePack :=
  after (Entry.set_embedding 0 (VFloatList [1.5; -2]%float)) σ_tokens.

(** The store after one field of the first token was set. *)
Definition σ_one_field : store SimplePack :=
  after (Entry.set_fields 0 [("_embedding", VNdarray [1.5]%float)]) σ_tokens.

(** A group of tokens, empty, at address 2 with id 2. *)
Definition σ_group : store SimplePack :=
  after (g ← construct_group TokenGroup (VPack the_pack) None; index_entry g) σ_tokens.

(** Two links from the first token to the second, at addresses 2 and 3
    with ids 2 and 3. *)
Definition two_links : M SimplePack unit :=
  d ← construct_link Dependency (VPack the_pack) (VEntry 0) (VEntry 1);
  index_entry d;;
  d' ← construct_link Dependency (VPack the_pack) (VEntry 0) (VEntry 1);
  index_entry d'.

Definition σ_links : store SimplePack := after two_links σ_tokens.

(** Nine tokens, with ids 0 to 8 at addresses 0 to 8, and two groups of
    tokens at addresses 9 and 10: the first is given the tokens with ids 0
    and 8 in this order, the second in the other order.  The sets are those
    of [probe_next]: 0 and 8 fall on the same slot of a table of eight
    slots, so the one added second lands behind the one added first. *)
Fixpoint construct_tokens (n : nat) : M SimplePack unit :=
  match n with
  | O => mret tt
  | S k => a ← construct Token (VPack the_pack); index_entry a;; construct_tokens k
  end.

Definition two_groups : M SimplePack unit :=
  construct_tokens 9;;
  g ← construct_group TokenGroup (VPack the_pack) (Some [VEntry 0; VEntry 8]);
  index_entry g;;
  g' ← construct_group TokenGroup (VPack the_pack) (Some [VEntry 8; VEntry 0]);
  index_entry g'.

Definition σ_groups : store SimplePack := after two_groups σ0.

(** Two links over [σ_groups], at addresses 11 and 12 with ids 11 and 12:
    the parent of the first is the first group, the parent of the second
    the second group, and the child of both is the first token. *)
Definition two_group_links : M SimplePack unit :=
  d ← construct_link Dependency (VPack the_pack) (VEntry 9) (VEntry 0);
  index_entry d;;
  d' ← construct_link Dependency (VPack the_pack) (VEntry 10) (VEntry 0);
  index_entry d'.

Definition σ_group_links : store SimplePack := after two_group_links σ_groups.

(** A group of the two tokens at address 2, and the object its snapshot
    deserializes to, at address 3, which nothing attaches to a container. *)
Definition σ_members : store SimplePack :=
  after (g ← construct_group TokenGroup (VPack the_pack) (Some [VEntry 0; VEntry 1]);
         index_entry g) σ_tokens.

Definition σ_deserialized : store SimplePack :=
  match serialize 2 σ_members with
  | Ok snapshot => after (deserialize snapshot) σ_members
  | Raise _ => σ_members
  end.

(** A new object of class [Sentence], not yet initialised. *)
Definition σ_new_sentence : store SimplePack := after (new Sentence) σ0.

End World.

(** * Reading a field by name *)

Section GetField.
Context {P : Type} `{!Container P}.

(** The names that the class of an object and its ancestors define other
    than the properties: methods and class variables.  What [getattr] finds
    under such a name is no value of the model. *)
Variable class_namespace : pytype → list string.

(** [getattr(self, name)]: a property of the class answers first, then the
    instance dictionary, then the class. *)
Definition getattr (self : addr) (name : string) : R P value :=
  deref self ≫= fun o : object =>
  if decide (name = "embedding") then Entry.embedding self
  else if decide (name = "tid") then Entry.tid self
  else if decide (name = "pack") then Entry.pack self
  else if decide (name = "index_key") then Entry.index_key self
  else if decide (name = "pack_id")
  then raiseR (Unmodelled "pack_id reads the meta data of the container")
  else if bool_decide (name = "members") && issubclass (obj_type o) BaseGroup_qn
  then BaseGroup.members self
  else match obj_dict o !! name with
       | Some v => mret v
       | None =>
           if decide (name ∈ class_namespace (obj_type o))
           then raiseR (Unmodelled "an attribute of the class")
           else raiseR (AttributeError (no_attribute (ty_name (obj_type o)) name))
       end.

(** [get_field(self, field_name)]. *)
Definition get_field (self : addr) (field_name : string) : R P value :=
  getattr self field_name.

End GetField.

(** The names [Entry.__init__] binds. *)
Definition init_names : list string :=
  ["_tid"; "_embedding"; "_Entry__pack"; "_Entry__field_modified"].

(** The instance dictionary a run of assignments leaves. *)
Definition assign_all (d : gmap string value) (kwargs : list (string * value))
  : gmap string value :=
  foldl (fun d kv => <[kv.1 := kv.2]> d) d kwargs.

(** The container after it recorded the names of a run of assignments for
    the entry with id [t]. *)
Definition record_all {P} `{!Container P} (t : Z) (p : P) (kwargs : list (string * value)) : P :=
  foldl (fun q kv => add_field_record t kv.1 q) p kwargs.

(** A keyword argument that [set_fields] applies and records without
    touching the id, the container or a property of the class. *)
Definition plain_field (o : object) (kv : string * value) : Prop :=
  (kv.1 ∈ dom (obj_dict o)) ∧ (kv.1 ∉ ["_tid"; "_Entry__pack"; "embedding"])
  ∧ (kv.1 ∉ Entry.read_only_properties (obj_type o)).

(** The entries in [known] can be hashed and compared with each other. *)
Definition can_compare {P} (eq_items : value → value → R P bool) (hash_item : value → R P Z)
  (σ : store P) (known : list addr) : Prop :=
  (∀ a, a ∈ known → ∃ h, hash_item (VEntry a) σ = Ok h)
  ∧ (∀ a a', a ∈ known → a' ∈ known → ∃ b, eq_items (VEntry a) (VEntry a') σ = Ok b).

(** Every key of a set of objects is one of the entries in [known]. *)
Definition keys_among (known : list addr) (s : list (Z * value)) : Prop :=
  ∀ e, e ∈ s → ∃ a, a ∈ known ∧ e.2 = VEntry a.

(** The object at [x] is an entry of a class that is neither a link nor a
    group, with the integer id [t]. *)
Definition base_entry {P} (σ : store P) (x : addr) (o : object) (t : Z) : Prop :=
  entries σ !! x = Some o ∧ kind_of (obj_type o) = KEntry
  ∧ obj_dict o !! "_tid" = Some (VInt t).

(** * More of the small world *)

Module Scenes.

(** A new object of class [Token], not yet initialised. *)
Definition σ_new_token : store SimplePack := World.after (new World.Token) World.σ0.

(** A token class with an attribute of its own, bound here by hand as its
    constructor would. *)
Definition σ_word : store SimplePack :=
  World.after (store_attr 0 "text" (VStr "word")) World.σ_tokens.

(** The first token detached from its container. *)
Definition σ_detached : store SimplePack :=
  World.after (Entry.set_pack 0 VNone) World.σ_tokens.

(** A group of the first token, at address 2 with id 2. *)
Definition σ_group_one : store SimplePack :=
  World.after (g ← construct_group World.TokenGroup (VPack World.the_pack)
                     (Some [VEntry 0]);
               World.index_entry g) World.σ_tokens.


(** A group whose set names the id 7, which the container does not
    know. *)
Definition σ_stale_group : store SimplePack :=
  World.after (store_attr 2 "_members" (VIntSet [0; 7]%Z)) World.σ_members.

(** A group detached from its container. *)
Definition σ_group_detached : store SimplePack :=
  World.after (Entry.set_pack 2 VNone) World.σ_members.

(** No name of the class is needed to read the fields of the examples. *)
Definition no_names (c : pytype) : list string := [].

End Scenes.

(** Settling a decidable statement about the examples by evaluation. *)
Ltac by_decide := apply (bool_decide_unpack _); vm_compute; exact I.
(** * Facts about the primitives *)


Section Primitives.
Context {P : Type} `{!Container P}.
Implicit Types (σ : store P) (o : object) (a self : addr).

Lemma deref_Some σ a o : entries σ !! a = Some o → deref a σ = Ok o.
Proof. intros Ha. unfold deref. by rewrite Ha. Qed.

Lemma type_of_entry σ a o : entries σ !! a = Some o → type_of (VEntry a) σ = Ok (obj_type o).
Proof. intros Ha. unfold type_of. unfold_monad. by rewrite (deref_Some _ _ _ Ha). Qed.

Lemma vars_entry σ a o : entries σ !! a = Some o → vars a σ = Ok (obj_dict o).
Proof. intros Ha. unfold vars. unfold_monad. by rewrite (deref_Some _ _ _ Ha). Qed.

Lemma load_attr_Some σ a o name v :
  entries σ !! a = Some o → obj_dict o !! name = Some v → load_attr a name σ = Ok v.
Proof.
  intros Ha Hv. unfold load_attr. unfold_monad.
  rewrite (deref_Some _ _ _ Ha), Hv. done.
Qed.

Lemma load_attr_None σ a o name :
  entries σ !! a = Some o → obj_dict o !! name = None →
  load_attr a name σ = Raise (AttributeError (no_attribute (ty_name (obj_type o)) name)).
Proof.
  intros Ha Hv. unfold load_attr. unfold_monad.
  rewrite (deref_Some _ _ _ Ha), Hv. done.
Qed.

Lemma store_attr_Some σ a o name v :
  entries σ !! a = Some o →
  store_attr a name v σ =
    (Ok tt, Store (<[a := Obj (obj_type o) (<[name := v]> (obj_dict o))]> (entries σ)) (packs σ)).
Proof. intros Ha. unfold store_attr. by rewrite Ha. Qed.

Lemma receiver_pack σ l p method :
  packs σ !! l = Some p → receiver (VPack l) method σ = Ok l.
Proof. intros Hl. unfold receiver. by rewrite Hl. Qed.

Lemma on_pack_Some {A} σ l p (f : P → A * P) :
  packs σ !! l = Some p →
  on_pack l f σ = (Ok (f p).1, Store (entries σ) (<[l := (f p).2]> (packs σ))).
Proof. intros Hl. unfold on_pack. rewrite Hl. by destruct (f p). Qed.

Lemma ask_pack_Some {A} σ l p (f : P → result A) :
  packs σ !! l = Some p → ask_pack l f σ = f p.
Proof. intros Hl. unfold ask_pack. by rewrite Hl. Qed.

End Primitives.

(** * Equality and hash of base entries *)

Section EntryIdentity.
Context {P : Type} `{!Container P} `{!Hashing}.
Implicit Types (σ : store P) (o : object) (a b self : addr).

Lemma entry_eq_value σ a b oa ob ta tb :
  entries σ !! a = Some oa → entries σ !! b = Some ob →
  obj_dict oa !! "_tid" = Some (VInt ta) → obj_dict ob !! "_tid" = Some (VInt tb) →
  Entry.__eq__ a (VEntry b) σ
  = Ok (bool_decide (obj_type oa = obj_type ob) && bool_decide (ta = tb)).
Proof.
  intros Ha Hb Hta Htb. unfold Entry.__eq__, Entry.dot_tid, Entry.tid. unfold_monad.
  rewrite (type_of_entry _ _ _ Ha), (load_attr_Some _ _ _ _ _ Ha Hta).
  rewrite (type_of_entry _ _ _ Hb), (load_attr_Some _ _ _ _ _ Hb Htb).
  reflexivity.
Qed.

Lemma entry_hash_value σ a oa ta :
  entries σ !! a = Some oa → obj_dict oa !! "_tid" = Some (VInt ta) →
  Entry.__hash__ a σ = Ok (hash_tuple [hash_type (obj_type oa); hash_int ta]).
Proof.
  intros Ha Hta. unfold Entry.__hash__. unfold_monad.
  rewrite (type_of_entry _ _ _ Ha), (load_attr_Some _ _ _ _ _ Ha Hta).
  reflexivity.
Qed.

(** C1. Two base entries are equal exactly when they have the same concrete
    type and the same id, whatever their other attributes hold (rebinding
    any attribute but the id on either side changes nothing), and entries
    with the same type and id have the same hash. *)
Theorem entry_eq_iff_type_and_id σ a b oa ob ta tb :
  entries σ !! a = Some oa → entries σ !! b = Some ob →
  obj_dict oa !! "_tid" = Some (VInt ta) → obj_dict ob !! "_tid" = Some (VInt tb) →
  Entry.__eq__ a (VEntry b) σ = Ok (bool_decide (obj_type oa = obj_type ob ∧ ta = tb))
  ∧ (∀ c name v, name ≠ "_tid" → is_Some (entries σ !! c) →
       Entry.__eq__ a (VEntry b) (store_attr c name v σ).2 = Entry.__eq__ a (VEntry b) σ)
  ∧ Entry.__hash__ a σ = Ok (hash_tuple [hash_type (obj_type oa); hash_int ta])
  ∧ (obj_type oa = obj_type ob ∧ ta = tb → Entry.__hash__ a σ = Entry.__hash__ b σ).
Proof.
  intros Ha Hb Hta Htb.
  assert (Heq : ∀ σ' oa' ob' ta' tb',
    entries σ' !! a = Some oa' → entries σ' !! b = Some ob' →
    obj_dict oa' !! "_tid" = Some (VInt ta') → obj_dict ob' !! "_tid" = Some (VInt tb') →
    Entry.__eq__ a (VEntry b) σ'
    = Ok (bool_decide (obj_type oa' = obj_type ob' ∧ ta' = tb'))).
  { intros σ' oa' ob' ta' tb' Ha' Hb' Hta' Htb'.
    rewrite (entry_eq_value _ _ _ _ _ _ _ Ha' Hb' Hta' Htb'). f_equal.
    destruct (decide (obj_type oa' = obj_type ob')), (decide (ta' = tb'));
      rewrite ?bool_decide_eq_true_2, ?bool_decide_eq_false_2 by tauto;
      simpl; rewrite ?bool_decide_eq_true_2, ?bool_decide_eq_false_2 by tauto; done. }
  split; [by eapply Heq|]. split; [|split].
  - intros c name v Hname [oc Hc].
    assert (∃ oa', entries (store_attr c name v σ).2 !! a = Some oa'
                   ∧ obj_type oa' = obj_type oa ∧ obj_dict oa' !! "_tid" = Some (VInt ta))
      as (oa' & Ha' & Hca & Hta').
    { rewrite (store_attr_Some _ _ _ _ _ Hc). simpl.
      destruct (decide (c = a)) as [->|Hne].
      - rewrite lookup_insert_eq. eexists; split; [done|]. simplify_eq. simpl.
        by rewrite lookup_insert_ne.
      - rewrite lookup_insert_ne by done. eauto. }
    assert (∃ ob', entries (store_attr c name v σ).2 !! b = Some ob'
                   ∧ obj_type ob' = obj_type ob ∧ obj_dict ob' !! "_tid" = Some (VInt tb))
      as (ob' & Hb' & Hcb & Htb').
    { rewrite (store_attr_Some _ _ _ _ _ Hc). simpl.
      destruct (decide (c = b)) as [->|Hne].
      - rewrite lookup_insert_eq. eexists; split; [done|]. simplify_eq. simpl.
        by rewrite lookup_insert_ne.
      - rewrite lookup_insert_ne by done. eauto. }
    rewrite (Heq _ _ _ _ _ Ha' Hb' Hta' Htb'), (Heq _ _ _ _ _ Ha Hb Hta Htb).
    by rewrite Hca, Hcb.
  - by apply entry_hash_value.
  - intros [Hty ->].
    rewrite (entry_hash_value _ _ _ _ Ha Hta), (entry_hash_value _ _ _ _ Hb Htb).
    by rewrite Hty.
Qed.

End EntryIdentity.

(** C1 at two tokens of one container: different ids, hence unequal. *)
Lemma entry_eq_iff_type_and_id_witness :
  Entry.__eq__ 0 (VEntry 1) World.σ_tokens
  = Ok (bool_decide (World.Token = World.Token ∧ 0%Z = 1%Z)).
Proof.
  refine (proj1 (entry_eq_iff_type_and_id World.σ_tokens 0 1
    (World.object_at World.σ_tokens 0) (World.object_at World.σ_tokens 1) 0 1 _ _ _ _));
  vm_compute; reflexivity.
Defined.

(** * Construction *)

Section Construction.
Context {P : Type} `{!Container P}.
Implicit Types (σ : store P) (o : object) (a self l : addr) (p : P).

(** What [__init__] does on a container at [l]: it takes the next id, binds
    the four attributes and asks for validation; a creation record is made
    only when validation returns. *)
Lemma init_outcome σ self l o p :
  entries σ !! self = Some o → packs σ !! l = Some p →
  let t := (get_next_id p).1 in
  let p1 := (get_next_id p).2 in
  let o' := initialised o t (VPack l) in
  Entry.__init__ self (VPack l) σ =
    match validate o' p1 with
    | Ok _ => (Ok tt, Store (<[self := o']> (entries σ))
                            (<[l := add_entry_creation_record t p1]> (packs σ)))
    | Raise e => (Raise e, Store (<[self := o']> (entries σ)) (<[l := p1]> (packs σ)))
    end.
Proof.
  intros Ho Hp t p1 o'. subst o'. unfold initialised.
  unfold Entry.__init__, Entry.record_creation. unfold_monad.
  rewrite (receiver_pack _ _ _ _ Hp), (on_pack_Some _ _ _ _ Hp). fold t p1.
  unfold store_attr at 1. simpl. rewrite Ho.
  do 3 (unfold store_attr at 1; simpl; rewrite lookup_insert_eq).
  simpl. rewrite !insert_insert_eq.
  unfold receiver, ask_pack, load_attr. unfold_monad. unfold deref. simpl.
  rewrite !lookup_insert_eq.
  destruct (validate _ p1) as [[]|e]; [|done].
  simpl. rewrite lookup_insert_ne by done. rewrite !lookup_insert_eq.
  rewrite !lookup_insert_ne by done. rewrite lookup_insert_eq. simpl.
  unfold on_pack. simpl. rewrite lookup_insert_eq. simpl. by rewrite insert_insert_eq.
Qed.

(** An entry whose construction went through has the attributes that
    serialization reads: an id, an empty vector as embedding, the container
    and an empty set of modified fields. *)
Lemma constructed_attributes σ self l o p :
  entries σ !! self = Some o → packs σ !! l = Some p →
  validate (initialised o (get_next_id p).1 (VPack l)) (get_next_id p).2 = Ok tt →
  ∃ σ' o', Entry.__init__ self (VPack l) σ = (Ok tt, σ')
    ∧ entries σ' !! self = Some o'
    ∧ obj_dict o' !! "_tid" = Some (VInt (get_next_id p).1)
    ∧ obj_dict o' !! "_embedding" = Some (VNdarray [])
    ∧ obj_dict o' !! "_Entry__pack" = Some (VPack l)
    ∧ obj_dict o' !! "_Entry__field_modified" = Some (VStrSet [])
    ∧ packs σ' !! l
      = Some (add_entry_creation_record (get_next_id p).1 (get_next_id p).2).
Proof.
  intros Ho Hp Hval. rewrite (init_outcome _ _ _ _ _ Ho Hp). simpl. rewrite Hval.
  eexists _, _. split; [done|]. simpl. split; [apply lookup_insert_eq|]. simpl.
  split; [by rewrite !lookup_insert_ne, lookup_insert_eq by done|].
  split; [by rewrite !lookup_insert_ne, lookup_insert_eq by done|].
  split; [by rewrite !lookup_insert_ne, lookup_insert_eq by done|].
  split; [apply lookup_insert_eq|apply lookup_insert_eq].
Qed.

(** C10. When the container's validation rejects the entry, construction
    fails with the container's exception; the container is left in the
    state its allocator produced, one id further and with no creation
    record added. *)
Theorem rejected_entry_consumes_id σ self l o p e :
  entries σ !! self = Some o → packs σ !! l = Some p →
  validate (initialised o (get_next_id p).1 (VPack l)) (get_next_id p).2 = Raise e →
  Entry.__init__ self (VPack l) σ
  = (Raise e, Store (<[self := initialised o (get_next_id p).1 (VPack l)]> (entries σ))
                    (<[l := (get_next_id p).2]> (packs σ))).
Proof.
  intros Ho Hp Hrej. rewrite (init_outcome _ _ _ _ _ Ho Hp). simpl. by rewrite Hrej.
Qed.

End Construction.

(** C10 on the counter container, which refuses [Sentence]: the counter
    moves from 0 to 1 and the creation audit stays empty. *)
Lemma rejected_entry_consumes_id_witness :
  ∃ σ', Entry.__init__ 0 (VPack World.the_pack) World.σ_new_sentence
        = (Raise (PackError "the container does not admit this entry"), σ')
    ∧ sp_next_id World.pack0 = 0%Z
    ∧ sp_next_id (World.pack_at σ' World.the_pack) = 1%Z
    ∧ sp_creation_records (World.pack_at σ' World.the_pack) = [].
Proof.
  eexists. split.
  - apply (rejected_entry_consumes_id World.σ_new_sentence 0 World.the_pack
             (Obj World.Sentence ∅) World.pack0); vm_compute; reflexivity.
  - vm_compute. auto.
Defined.

(** * Serialization *)

Section Serialization.
Context {P : Type} `{!Container P}.
Implicit Types (σ : store P) (o : object) (a self : addr).

Lemma getstate_value σ self o emb pk fm :
  entries σ !! self = Some o →
  obj_dict o !! "_embedding" = Some (VNdarray emb) →
  obj_dict o !! "_Entry__pack" = Some pk →
  obj_dict o !! "_Entry__field_modified" = Some fm →
  Entry.__getstate__ self σ
  = Ok (delete "_Entry__field_modified"
          (delete "_Entry__pack" (<["_embedding" := VFloatList emb]> (obj_dict o)))).
Proof.
  intros Ho Hemb Hpk Hfm. unfold Entry.__getstate__. unfold_monad.
  rewrite (vars_entry _ _ _ Ho), (load_attr_Some _ _ _ _ _ Ho Hemb). simpl.
  unfold dict_pop. unfold_monad.
  rewrite lookup_insert_ne, Hpk by done.
  rewrite lookup_delete_ne, lookup_insert_ne, Hfm by done.
  reflexivity.
Qed.

Lemma setstate_new σ c state emb :
  state !! "_embedding" = Some (VFloatList emb) →
  (self ← new c; Entry.__setstate__ self state;; mret self) σ
  = (Ok (fresh_addr σ),
     Store (<[fresh_addr σ :=
               Obj c (<["_embedding" := VNdarray emb]> state
                      ∪ {["_Entry__field_modified" := VStrSet []]})]> (entries σ))
           (packs σ)).
Proof.
  intros Hemb. unfold new, Entry.__setstate__, Entry.dict_update, store_attr, dict_get, np_array.
  unfold_monad. simpl. rewrite lookup_insert_eq. simpl. rewrite Hemb. simpl.
  rewrite lookup_insert_eq. simpl. rewrite !insert_insert_eq.
  by rewrite insert_empty.
Qed.

(** C2. Deserializing the snapshot of an entry gives an object of the same
    class whose attributes are those of the entry, value for value, except
    that the container is absent and the modified-field set is empty.  The
    snapshot holds the embedding as a plain list of floats and has neither
    of the two excluded attributes; the new object holds the embedding as a
    vector again. *)
Theorem serialization_roundtrip σ self o emb pk fm :
  entries σ !! self = Some o →
  obj_dict o !! "_embedding" = Some (VNdarray emb) →
  obj_dict o !! "_Entry__pack" = Some pk →
  obj_dict o !! "_Entry__field_modified" = Some fm →
  ∃ state σ' o',
    serialize self σ = Ok (obj_type o, state)
    ∧ state !! "_embedding" = Some (VFloatList emb)
    ∧ state !! "_Entry__pack" = None
    ∧ state !! "_Entry__field_modified" = None
    ∧ deserialize (obj_type o, state) σ = (Ok (fresh_addr σ), σ')
    ∧ entries σ' !! fresh_addr σ = Some o'
    ∧ obj_type o' = obj_type o
    ∧ obj_dict o' !! "_embedding" = Some (VNdarray emb)
    ∧ obj_dict o' !! "_Entry__pack" = None
    ∧ obj_dict o' !! "_Entry__field_modified" = Some (VStrSet [])
    ∧ (∀ k, k ≠ "_Entry__pack" → k ≠ "_Entry__field_modified" →
         obj_dict o' !! k = obj_dict o !! k).
Proof.
  intros Ho Hemb Hpk Hfm.
  set (state := delete "_Entry__field_modified"
          (delete "_Entry__pack" (<["_embedding" := VFloatList emb]> (obj_dict o)))).
  assert (Hst : state !! "_embedding" = Some (VFloatList emb)).
  { unfold state. rewrite !lookup_delete_ne by done. apply lookup_insert_eq. }
  eexists state, _, _. split; [|split; [done|]].
  { unfold serialize. unfold_monad.
    by rewrite (type_of_entry _ _ _ Ho), (getstate_value _ _ _ _ _ _ Ho Hemb Hpk Hfm). }
  split; [unfold state; rewrite lookup_delete_ne by done; apply lookup_delete_eq|].
  split; [apply lookup_delete_eq|].
  split; [unfold deserialize; simpl; apply (setstate_new _ _ _ _ Hst)|].
  split; [simpl; apply lookup_insert_eq|].
  simpl. split; [done|].
  split; [by rewrite lookup_union, lookup_insert_eq, lookup_singleton_ne|].
  split.
  { rewrite lookup_union, lookup_insert_ne, lookup_singleton_ne by done.
    unfold state. rewrite lookup_delete_ne by done. by rewrite lookup_delete_eq. }
  split.
  { rewrite lookup_union, lookup_insert_ne, lookup_singleton_eq by done.
    unfold state. by rewrite lookup_delete_eq. }
  intros k Hk1 Hk2. rewrite lookup_union, lookup_singleton_ne by done.
  destruct (decide (k = "_embedding")) as [->|Hk3].
  - by rewrite lookup_insert_eq, Hemb.
  - rewrite lookup_insert_ne by done. unfold state.
    rewrite !lookup_delete_ne, lookup_insert_ne by done.
    by destruct (obj_dict o !! k).
Qed.

End Serialization.

(** C2 at a token whose embedding was set to a vector of two floats. *)
Lemma serialization_roundtrip_witness :
  ∃ state σ' o',
    serialize 0 World.σ_embedded = Ok (World.Token, state)
    ∧ state !! "_embedding" = Some (VFloatList [1.5; -2]%float)
    ∧ state !! "_Entry__pack" = None
    ∧ state !! "_Entry__field_modified" = None
    ∧ deserialize (World.Token, state) World.σ_embedded = (Ok 2, σ')
    ∧ entries σ' !! 2 = Some o'
    ∧ obj_type o' = World.Token
    ∧ obj_dict o' !! "_embedding" = Some (VNdarray [1.5; -2]%float)
    ∧ obj_dict o' !! "_Entry__pack" = None
    ∧ obj_dict o' !! "_Entry__field_modified" = Some (VStrSet [])
    ∧ (∀ k, k ≠ "_Entry__pack" → k ≠ "_Entry__field_modified" →
         obj_dict o' !! k = obj_dict (World.object_at World.σ_embedded 0) !! k).
Proof.
  apply (serialization_roundtrip World.σ_embedded 0
           (World.object_at World.σ_embedded 0) [1.5; -2]%float (VPack World.the_pack)
           (VStrSet []));
  vm_compute; reflexivity.
Defined.

(** * Field setting *)

Section Fields.
Context {P : Type} `{!Container P}.
Implicit Types (σ : store P) (o : object) (a self l : addr) (p : P).

Lemma set_fields_app self pre post σ :
  Entry.set_fields self (pre ++ post) σ =
    match Entry.set_fields self pre σ with
    | (Ok _, σ1) => Entry.set_fields self post σ1
    | (Raise e, σ1) => (Raise e, σ1)
    end.
Proof.
  revert σ. induction pre as [|[name v] pre IH]; intros σ; [done|].
  simpl. unfold_monad.
  destruct (Entry.set_field self name v σ) as [[[]|e] σ1]; [apply IH|done].
Qed.

(** A name that is not in the instance dictionary: the error, and the store
    as it was. *)
Lemma set_field_unknown σ self o name v :
  entries σ !! self = Some o → name ∉ dom (obj_dict o) →
  Entry.set_field self name v σ
  = (Raise (AttributeError (Entry.unknown_field_msg (obj_type o) name)), σ).
Proof.
  intros Ho Hname. unfold Entry.set_field. unfold_monad.
  rewrite (vars_entry _ _ _ Ho). rewrite decide_False by done.
  by rewrite (type_of_entry _ _ _ Ho).
Qed.

(** A name of the instance dictionary that no property of the class
    shadows: the attribute is bound to the value, and the container the
    entry then refers to records the name under the id the entry then
    has. *)
Lemma set_field_known σ self o name v l p t :
  entries σ !! self = Some o → name ∈ dom (obj_dict o) →
  name ≠ "embedding" → name ∉ Entry.read_only_properties (obj_type o) →
  <[name := v]> (obj_dict o) !! "_Entry__pack" = Some (VPack l) →
  packs σ !! l = Some p →
  <[name := v]> (obj_dict o) !! "_tid" = Some (VInt t) →
  Entry.set_field self name v σ
  = (Ok tt, Store (<[self := Obj (obj_type o) (<[name := v]> (obj_dict o))]> (entries σ))
                  (<[l := add_field_record t name p]> (packs σ))).
Proof.
  intros Ho Hname Hemb Hro Hpk Hp Ht. unfold Entry.set_field, Entry.setattr. unfold_monad.
  rewrite (vars_entry _ _ _ Ho). rewrite decide_True by done.
  rewrite (deref_Some _ _ _ Ho). rewrite decide_False by done.
  rewrite decide_False by done. rewrite (store_attr_Some _ _ _ _ _ Ho).
  set (σ1 := Store _ _).
  assert (Ho1 : entries σ1 !! self = Some (Obj (obj_type o) (<[name := v]> (obj_dict o))))
    by apply lookup_insert_eq.
  rewrite (load_attr_Some _ _ _ _ _ Ho1 Hpk).
  assert (Hp1 : packs σ1 !! l = Some p) by done.
  rewrite (receiver_pack _ _ _ _ Hp1). unfold Entry.tid.
  rewrite (load_attr_Some _ _ _ _ _ Ho1 Ht). simpl.
  by rewrite (on_pack_Some _ _ _ _ Hp1).
Qed.

(** C3. A call of [set_fields] goes through its pairs in order.  After a
    prefix that went through, a name that is not an attribute of the entry
    ends the call with the error that names the class and the field, in the
    store the prefix left (so the field is not bound and what the prefix
    did stays); a name that is an attribute is bound to its value and
    recorded in the container's field audit under the entry's id, and the
    call goes on with the remaining pairs. *)
Theorem set_fields_pairwise σ self pre name v post σ1 o :
  Entry.set_fields self pre σ = (Ok tt, σ1) →
  entries σ1 !! self = Some o →
  (name ∉ dom (obj_dict o) →
     Entry.set_fields self (pre ++ (name, v) :: post) σ
     = (Raise (AttributeError (Entry.unknown_field_msg (obj_type o) name)), σ1))
  ∧ (name ∈ dom (obj_dict o) →
     name ≠ "embedding" → name ∉ Entry.read_only_properties (obj_type o) →
     ∀ l p t,
       <[name := v]> (obj_dict o) !! "_Entry__pack" = Some (VPack l) →
       packs σ1 !! l = Some p →
       <[name := v]> (obj_dict o) !! "_tid" = Some (VInt t) →
       Entry.set_fields self (pre ++ (name, v) :: post) σ
       = Entry.set_fields self post
           (Store (<[self := Obj (obj_type o) (<[name := v]> (obj_dict o))]> (entries σ1))
                  (<[l := add_field_record t name p]> (packs σ1)))).
Proof.
  intros Hpre Ho. split.
  - intros Hname. rewrite set_fields_app, Hpre. simpl. unfold_monad.
    by rewrite (set_field_unknown _ _ _ _ _ Ho Hname).
  - intros Hname Hemb Hro l p t Hpk Hp Ht. rewrite set_fields_app, Hpre. simpl.
    unfold_monad.
    by rewrite (set_field_known _ _ _ _ _ _ _ _ Ho Hname Hemb Hro Hpk Hp Ht).
Qed.

End Fields.

(** C3 at a token: the first pair names an attribute and is applied and
    recorded, the second names none and ends the call, the third is never
    reached. *)
Lemma set_fields_pairwise_witness :
  Entry.set_fields 0
    ([("_embedding", VNdarray [1.5]%float)] ++ ("text", VStr "x") :: [("_tid", VInt 5)])
    World.σ_tokens
  = (Raise (AttributeError
       "The entry type [<class 'ft.onto.base_ontology.Token'>] does not have an attribute: 'text'."),
     World.σ_one_field)
  ∧ obj_dict (World.object_at World.σ_one_field 0) !! "_embedding"
    = Some (VNdarray [1.5]%float)
  ∧ obj_dict (World.object_at World.σ_one_field 0) !! "text" = None
  ∧ sp_field_records (World.pack_at World.σ_one_field World.the_pack) = [(0%Z, "_embedding")].
Proof.
  split; [|by vm_compute].
  refine (proj1 (set_fields_pairwise World.σ_tokens 0 [("_embedding", VNdarray [1.5]%float)]
    "text" (VStr "x") [("_tid", VInt 5)] World.σ_one_field
    (World.object_at World.σ_one_field 0) _ _) _).
  - vm_compute; reflexivity.
  - vm_compute; reflexivity.
  - apply not_elem_of_dom. vm_compute; reflexivity.
Defined.

(** * The id of an entry under the mutators *)

Section Identity.
Context {P : Type} `{!Container P}.
Implicit Types (σ : store P) (o : object) (a self l : addr) (p : P).
Local Abbreviation keeps m := (@keeps_ids P _ m).

Lemma tid_of_view σ σ' a :
  identity_view σ' a = identity_view σ a → Entry.tid a σ' = Entry.tid a σ.
Proof.
  unfold identity_view, Entry.tid, load_attr, deref. unfold_monad. intros Hv.
  destruct (entries σ' !! a) as [o'|], (entries σ !! a) as [o|]; simpl in Hv; try done.
  injection Hv as Hty Htid. simpl. rewrite Hty, Htid.
  by destruct (obj_dict o !! "_tid").
Qed.

Lemma keeps_ids_ret {A} (x : A) : keeps (mret x : M P A).
Proof. done. Qed.

Lemma keeps_ids_raise {A} e : keeps (raise e : M P A).
Proof. done. Qed.

Lemma keeps_ids_read {A} (r : R P A) : keeps (read r).
Proof. done. Qed.

Lemma keeps_ids_bind {A B} (m : M P A) (f : A → M P B) :
  keeps_ids m → (∀ x, keeps (f x)) → keeps (m ≫= f).
Proof.
  intros Hm Hf σ a. unfold_monad. specialize (Hm σ a).
  destruct (m σ) as [[x|e] σ1]; simpl in *; [|done].
  by rewrite (Hf x σ1 a).
Qed.

Lemma keeps_ids_on_pack {A} l (f : P → A * P) : keeps (on_pack l f).
Proof.
  intros σ a. unfold on_pack. destruct (packs σ !! l) as [p|]; [|done].
  by destruct (f p).
Qed.

Lemma keeps_ids_store_attr c name v : name ≠ "_tid" → keeps (store_attr c name v).
Proof.
  intros Hname σ a. unfold store_attr, identity_view.
  destruct (entries σ !! c) as [oc|] eqn:Hc; [|done]. simpl.
  destruct (decide (c = a)) as [->|Hne].
  - rewrite lookup_insert_eq, Hc. simpl. by rewrite lookup_insert_ne.
  - by rewrite lookup_insert_ne.
Qed.

Lemma keeps_ids_set_embedding self embed : keeps (Entry.set_embedding self embed).
Proof.
  apply keeps_ids_bind; [apply keeps_ids_read|].
  intros x. by apply keeps_ids_store_attr.
Qed.

Lemma keeps_ids_setattr self name v : name ≠ "_tid" → keeps (Entry.setattr self name v).
Proof.
  intros Hname. apply keeps_ids_bind; [apply keeps_ids_read|]. intros o.
  destruct (decide (name = "embedding")); [apply keeps_ids_set_embedding|].
  destruct (decide (name ∈ _)); [apply keeps_ids_raise|].
  by apply keeps_ids_store_attr.
Qed.

Lemma keeps_ids_set_field self name v : name ≠ "_tid" → keeps (Entry.set_field self name v).
Proof.
  intros Hname. unfold Entry.set_field.
  apply keeps_ids_bind; [apply keeps_ids_read|]. intros d.
  apply keeps_ids_bind.
  { destruct (decide (name ∈ dom d)); [by apply keeps_ids_setattr|].
    apply keeps_ids_bind; [apply keeps_ids_read|]. intros c. apply keeps_ids_raise. }
  intros _. do 3 (apply keeps_ids_bind; [apply keeps_ids_read|]; intros ?).
  apply keeps_ids_on_pack.
Qed.

Lemma keeps_ids_set_fields self kwargs :
  "_tid" ∉ kwargs.*1 → keeps (Entry.set_fields self kwargs).
Proof.
  induction kwargs as [|[name v] kwargs IH]; intros Hk; [apply keeps_ids_ret|].
  simpl in *. apply not_elem_of_cons in Hk as [Hne Hk].
  apply keeps_ids_bind; [by apply keeps_ids_set_field|]. intros _. by apply IH.
Qed.

Lemma keeps_ids_add_members `{!SetOrder} self members :
  keeps (BaseGroup.add_members self members).
Proof.
  induction members as [|member members IH]; [apply keeps_ids_ret|].
  simpl. apply keeps_ids_bind; [|by intros _].
  unfold BaseGroup.add_one.
  do 2 (apply keeps_ids_bind; [apply keeps_ids_read|]; intros ?).
  apply keeps_ids_bind.
  { destruct (issubclass _ _); [apply keeps_ids_ret|].
    apply keeps_ids_bind; [apply keeps_ids_read|]. intros c. apply keeps_ids_raise. }
  intros _. unfold BaseGroup.members_add.
  apply keeps_ids_bind; [apply keeps_ids_read|]. intros s.
  destruct s; try apply keeps_ids_raise.
  apply keeps_ids_bind; [apply keeps_ids_read|]. intros t.
  by apply keeps_ids_store_attr.
Qed.

End Identity.

Lemma kind_link_issubclass c : kind_of c = KLink → issubclass c BaseLink_qn = true.
Proof. unfold kind_of. by repeat case_match. Qed.

Section IdentityClaims.
Context {P : Type} `{!Container P} `{!Hashing} `{!SetOrder} `{!LinkImpl P}.
Implicit Types (σ : store P) (o : object) (a self l : addr) (p : P).

(** The constructor of a link that is given no endpoint does what the
    constructor of an entry does. *)
Lemma link_init_no_endpoints σ self o pack :
  entries σ !! self = Some o → issubclass (obj_type o) BaseLink_qn = true →
  BaseLink.__init__ self pack VNone VNone σ = Entry.__init__ self pack σ.
Proof.
  intros Ho Hlink. unfold BaseLink.__init__. unfold_monad.
  rewrite (type_of_entry _ _ _ Ho), Hlink.
  by destruct (Entry.__init__ self pack σ) as [[[]|e] σ1].
Qed.

(** On a receiver that is no link the constructor of a link raises at
    [super()], before anything is bound. *)
Lemma link_init_not_a_link σ self o pack parent child :
  entries σ !! self = Some o → issubclass (obj_type o) BaseLink_qn = false →
  BaseLink.__init__ self pack parent child σ = (Raise (TypeError BaseLink.super_msg), σ).
Proof.
  intros Ho Hlink. unfold BaseLink.__init__. unfold_monad.
  by rewrite (type_of_entry _ _ _ Ho), Hlink.
Qed.

Lemma tid_after_keeps {A} (m : M P A) σ self :
  keeps_ids m → Entry.tid self (m σ).2 = Entry.tid self σ.
Proof. intros Hm. apply tid_of_view, Hm. Qed.

Lemma tid_after_bind_keeps {A B} (m : M P A) (f : A → M P B) σ self :
  (∀ x, keeps_ids (f x)) →
  Entry.tid self ((m ≫= f) σ).2 = Entry.tid self (m σ).2.
Proof.
  intros Hf. unfold_monad. destruct (m σ) as [[x|e] σ1]; simpl; [|done].
  apply tid_of_view, Hf.
Qed.

(** However [__init__] ends on a container, the entry has the id the
    container's allocator gave. *)
Lemma tid_after_init σ self l o p :
  entries σ !! self = Some o → packs σ !! l = Some p →
  Entry.tid self (Entry.__init__ self (VPack l) σ).2 = Ok (VInt (get_next_id p).1).
Proof.
  intros Ho Hp. rewrite (init_outcome _ _ _ _ _ Ho Hp). simpl.
  destruct (validate _ _); simpl;
    (eapply (load_attr_Some _ _ (initialised o (get_next_id p).1 (VPack l)));
       [apply lookup_insert_eq|]); simpl;
    by rewrite !lookup_insert_ne, lookup_insert_eq by done.
Qed.

Lemma tid_after_reset σ self l o p :
  entries σ !! self = Some o → obj_dict o !! "_Entry__pack" = Some (VPack l) →
  packs σ !! l = Some p →
  Entry.tid self (reset self σ).2 = Ok (VInt (get_next_id p).1).
Proof.
  intros Ho Hpk Hp. unfold reset, Entry.reset.
  change (Entry.tid self ((read (load_attr self "_Entry__pack") ≫= py_init self) σ).2
          = Ok (VInt (get_next_id p).1)).
  unfold mbind at 1. unfold M_bind, read. rewrite (load_attr_Some _ _ _ _ _ Ho Hpk).
  unfold py_init.
  change (Entry.tid self
    ((read (type_of (VEntry self)) ≫= fun c =>
        match kind_of c with
        | KEntry => Entry.__init__ self (VPack l)
        | KLink => BaseLink.__init__ self (VPack l) VNone VNone
        | KGroup => BaseGroup.__init__ (P := P) self (VPack l) None
        end) σ).2 = Ok (VInt (get_next_id p).1)).
  unfold mbind at 1. unfold M_bind, read. rewrite (type_of_entry _ _ _ Ho).
  destruct (kind_of (obj_type o)) eqn:Hkind.
  - apply (tid_after_init _ _ _ _ _ Ho Hp).
  - rewrite (link_init_no_endpoints _ _ _ _ Ho (kind_link_issubclass _ Hkind)).
    apply (tid_after_init _ _ _ _ _ Ho Hp).
  - unfold BaseGroup.__init__.
    rewrite tid_after_bind_keeps; [apply (tid_after_init _ _ _ _ _ Ho Hp)|].
    intros _. apply keeps_ids_bind; [by apply keeps_ids_store_attr|].
    intros _. apply keeps_ids_ret.
Qed.

(** C8, amended.  An entry gets its id at construction, the next id of the
    container.  [set_fields] on names other than [_tid], the [embedding]
    setter, [set_pack] and [add_members] leave the id as it is.  [reset]
    runs the construction again and the entry has the container's next id
    afterwards. *)
Theorem id_fixed_by_construction σ self :
  (∀ l o p, entries σ !! self = Some o → packs σ !! l = Some p →
     Entry.tid self (Entry.__init__ self (VPack l) σ).2 = Ok (VInt (get_next_id p).1))
  ∧ (∀ kwargs, "_tid" ∉ kwargs.*1 →
     Entry.tid self (Entry.set_fields self kwargs σ).2 = Entry.tid self σ)
  ∧ (∀ embed, Entry.tid self (Entry.set_embedding self embed σ).2 = Entry.tid self σ)
  ∧ (∀ pack, Entry.tid self (Entry.set_pack self pack σ).2 = Entry.tid self σ)
  ∧ (∀ members, Entry.tid self (BaseGroup.add_members self members σ).2 = Entry.tid self σ)
  ∧ (∀ l o p, entries σ !! self = Some o →
     obj_dict o !! "_Entry__pack" = Some (VPack l) → packs σ !! l = Some p →
     Entry.tid self (reset self σ).2 = Ok (VInt (get_next_id p).1)).
Proof.
  split; [intros l o p; apply tid_after_init|].
  split; [intros kwargs Hk; by apply tid_after_keeps, keeps_ids_set_fields|].
  split; [intros embed; apply tid_after_keeps, keeps_ids_set_embedding|].
  split; [intros pack; by apply tid_after_keeps, keeps_ids_store_attr|].
  split; [intros members; apply tid_after_keeps, keeps_ids_add_members|].
  intros l o p. apply tid_after_reset.
Qed.

End IdentityClaims.

(** C8 as stated fails: on a token with id 0, [set_fields(_tid=99)] goes
    through and leaves the id 99, and [reset()] goes through and leaves the
    id 2, the container's next one. *)
Lemma id_not_immutable :
  Entry.tid 0 World.σ_tokens = Ok (VInt 0)
  ∧ (Entry.set_fields 0 [("_tid", VInt 99)] World.σ_tokens).1 = Ok tt
  ∧ Entry.tid 0 (Entry.set_fields 0 [("_tid", VInt 99)] World.σ_tokens).2 = Ok (VInt 99)
  ∧ (reset 0 World.σ_tokens).1 = Ok tt
  ∧ Entry.tid 0 (reset 0 World.σ_tokens).2 = Ok (VInt 2).
Proof. by vm_compute. Qed.

(** * Groups: adding members *)

Section PySet.
Context `{!SetOrder}.

Lemma elem_of_pyset_add (x y : Z) (s : list Z) : y ∈ pyset_add x s ↔ y = x ∨ y ∈ s.
Proof.
  unfold pyset_add. destruct (decide (x ∈ s)) as [Hx|Hx].
  - split; [by right|]. by intros [->|].
  - rewrite (set_place_perm _ x s). apply elem_of_cons.
Qed.

Lemma NoDup_pyset_add (x : Z) (s : list Z) : NoDup s → NoDup (pyset_add x s).
Proof.
  intros Hs. unfold pyset_add. destruct (decide (x ∈ s)) as [Hx|Hx]; [done|].
  rewrite (set_place_perm _ x s). by apply NoDup_cons.
Qed.



End PySet.

Section GroupMembers.
Context {P : Type} `{!Container P} `{!SetOrder}.
Implicit Types (σ : store P) (o g m : object) (a self member : addr) (l : list Z).

Lemma rebind_lookup σ self g name v :
  entries (rebind self g name v σ) !! self
  = Some (Obj (obj_type g) (<[name := v]> (obj_dict g))).
Proof. apply lookup_insert_eq. Qed.

Lemma rebind_rebind σ self g name v w :
  rebind self (Obj (obj_type g) (<[name := v]> (obj_dict g))) name w (rebind self g name v σ)
  = rebind self g name w σ.
Proof. unfold rebind. simpl. by rewrite !insert_insert_eq. Qed.

Lemma accepted_id_rebind σ self g v T c :
  entries σ !! self = Some g →
  accepted_id (rebind self g "_members" v σ) T c = accepted_id σ T c.
Proof.
  intros Hg. destruct c as [| | | | | | |b|]; try done. simpl.
  destruct (decide (self = b)) as [->|Hne].
  - rewrite lookup_insert_eq, Hg. simpl. by rewrite lookup_insert_ne.
  - by rewrite lookup_insert_ne.
Qed.


(** One [add_member] on any candidate: the set gains the candidate's id
    when the candidate is accepted, and nothing changes otherwise. *)
Lemma add_member_store σ self g T l c :
  entries σ !! self = Some g → ty_MemberType (obj_type g) = Some T →
  obj_dict g !! "_members" = Some (VIntSet l) →
  (BaseGroup.add_member self c σ).2
  = match accepted_id σ T c with
    | Some t => rebind self g "_members" (VIntSet (pyset_add t l)) σ
    | None => σ
    end.
Proof.
  intros Hg HT Hl.
  unfold BaseGroup.add_member, BaseGroup.add_members, BaseGroup.add_one,
    BaseGroup.MemberType, BaseGroup.members_add, Entry.dot_tid, Entry.tid.
  unfold_monad. rewrite (type_of_entry _ _ _ Hg), HT.
  destruct c as [| | | | | | |b|]; simpl;
    try (destruct (issubclass _ T); simpl; [|by rewrite ?(type_of_entry _ _ _ Hg)];
         by rewrite (load_attr_Some _ _ _ _ _ Hg Hl)).
  unfold deref, load_attr. unfold_monad. unfold deref.
  destruct (entries σ !! b) as [m|] eqn:Hm; simpl; [|done].
  destruct (issubclass (obj_type m) T); simpl; [|by rewrite Hg].
  rewrite Hg, Hl. simpl. rewrite Hm.
  destruct (obj_dict m !! "_tid") as [[]|]; simpl; try done.
  by rewrite (store_attr_Some _ _ _ _ _ Hg).
Qed.

(** A run of [add_member] calls changes nothing but the member set of the
    group, which ends as a set without repetition of the ids it had and the
    ids of the accepted candidates. *)
Lemma add_each_members self T candidates :
  ∀ σ g l,
  entries σ !! self = Some g → ty_MemberType (obj_type g) = Some T →
  obj_dict g !! "_members" = Some (VIntSet l) → NoDup l →
  ∃ l', entries (add_each self candidates σ) !! self
        = Some (Obj (obj_type g) (<["_members" := VIntSet l']> (obj_dict g)))
        ∧ NoDup l'
        ∧ ∀ x, x ∈ l' ↔ x ∈ l ∨ ∃ c, c ∈ candidates ∧ accepted_id σ T c = Some x.
Proof.
  induction candidates as [|c cs IH]; intros σ g l Hg HT Hl Hnd.
  - exists l. split; [|split; [done|]].
    + simpl. rewrite Hg. f_equal. destruct g as [ty d]. simpl in *.
      by rewrite insert_id.
    + intros x. split; [by left|]. intros [|(c & Hc & _)]; [done|].
      by apply not_elem_of_nil in Hc.
  - unfold add_each. simpl. fold (add_each self cs).
    rewrite (add_member_store _ _ _ _ _ _ Hg HT Hl).
    destruct (accepted_id σ T c) as [t|] eqn:Hacc.
    + destruct (IH (rebind self g "_members" (VIntSet (pyset_add t l)) σ)
                  (Obj (obj_type g) (<["_members" := VIntSet (pyset_add t l)]> (obj_dict g)))
                  (pyset_add t l)) as (l' & Hl' & Hnd' & Hin).
      { apply rebind_lookup. } { done. } { apply lookup_insert_eq. }
      { by apply NoDup_pyset_add. }
      exists l'. simpl in Hl'. rewrite insert_insert_eq in Hl'.
      split; [done|]. split; [done|]. intros x. rewrite Hin, elem_of_pyset_add.
      split.
      * intros [[->|Hx]|(c' & Hc' & Hacc')].
        -- right. exists c. split; [left|done].
        -- by left.
        -- right. exists c'. split; [by right|].
           by rewrite (accepted_id_rebind _ _ _ _ _ _ Hg) in Hacc'.
      * intros [Hx|(c' & Hc' & Hacc')]; [left; by right|].
        apply elem_of_cons in Hc' as [->|Hc'].
        -- left. left. congruence.
        -- right. exists c'. split; [done|].
           by rewrite (accepted_id_rebind _ _ _ _ _ _ Hg).
    + destruct (IH σ g l Hg HT Hl Hnd) as (l' & Hl' & Hnd' & Hin).
      exists l'. split; [done|]. split; [done|]. intros x. rewrite Hin.
      split.
      * intros [Hx|(c' & Hc' & Hacc')]; [by left|].
        right. exists c'. split; [by right|done].
      * intros [Hx|(c' & Hc' & Hacc')]; [by left|].
        apply elem_of_cons in Hc' as [->|Hc']; [congruence|].
        right. by exists c'.
Qed.


End GroupMembers.


(** * Links: equality and hash over the endpoints *)

Lemma is_true_eq (v w : value) : is_ v w = true → v = w.
Proof.
  destruct v, w; simpl; try done; intros H; apply bool_decide_eq_true in H; by subst.
Qed.

Section Links.
Context {P : Type} `{!Container P} `{!Hashing} `{!LinkImpl P}.
Implicit Types (σ : store P) (o : object) (a b self : addr) (p ch : value).

(** [==] and [hash] as the interpreter applies them to the endpoints. *)
Variable eq_items : value → value → R P bool.
Variable hash_item : value → R P Z.

(** What [__eq__] returns on two links whose endpoints resolve. *)
Lemma link_eq_value σ a b oa ob p ch p' ch' :
  entries σ !! a = Some oa → entries σ !! b = Some ob →
  issubclass (obj_type ob) BaseLink_qn = true →
  get_parent a σ = Ok p → get_child a σ = Ok ch →
  get_parent b σ = Ok p' → get_child b σ = Ok ch' →
  BaseLink.__eq__ eq_items a (VEntry b) σ
  = if bool_decide (obj_type oa = obj_type ob)
    then match item_eq eq_items p p' σ with
         | Ok true => item_eq eq_items ch ch' σ
         | Ok false => Ok false
         | Raise e => Raise e
         end
    else Ok false.
Proof.
  intros Ha Hb Hlink Hp Hch Hp' Hch'. unfold BaseLink.__eq__, BaseLink.dot_get.
  unfold_monad. rewrite (type_of_entry _ _ _ Ha), Hp, Hch, (type_of_entry _ _ _ Hb).
  rewrite Hlink, Hp', Hch'.
  destruct (bool_decide (obj_type oa = obj_type ob)); simpl; [|done].
  by destruct (item_eq eq_items p p' σ) as [[]|].
Qed.

Lemma link_hash_value σ a oa p ch :
  entries σ !! a = Some oa → get_parent a σ = Ok p → get_child a σ = Ok ch →
  BaseLink.__hash__ hash_item a σ
  = match hash_item p σ, hash_item ch σ with
    | Ok hp, Ok hc => Ok (hash_tuple [hash_type (obj_type oa); hp; hc])
    | Raise e, _ => Raise e
    | Ok _, Raise e => Raise e
    end.
Proof.
  intros Ha Hp Hch. unfold BaseLink.__hash__. unfold_monad.
  rewrite (type_of_entry _ _ _ Ha), Hp, Hch.
  by destruct (hash_item p σ), (hash_item ch σ).
Qed.

(** Two links whose endpoints resolve are equal exactly when they have the
    same concrete type, equal parents and equal children, whatever their
    own ids; the hash is that of the triple of the type, the parent and the
    child.  Equal links hash alike as far as their endpoints do: when the
    endpoints are the same objects, or are equal and hash alike
    themselves. *)
Lemma link_eq_hash_by_endpoints σ a b oa ob p ch p' ch' :
  entries σ !! a = Some oa → entries σ !! b = Some ob →
  issubclass (obj_type ob) BaseLink_qn = true →
  get_parent a σ = Ok p → get_child a σ = Ok ch →
  get_parent b σ = Ok p' → get_child b σ = Ok ch' →
  (BaseLink.__eq__ eq_items a (VEntry b) σ = Ok true
   ↔ obj_type oa = obj_type ob
     ∧ item_eq eq_items p p' σ = Ok true ∧ item_eq eq_items ch ch' σ = Ok true)
  ∧ (∀ hp hc, hash_item p σ = Ok hp → hash_item ch σ = Ok hc →
       BaseLink.__hash__ hash_item a σ = Ok (hash_tuple [hash_type (obj_type oa); hp; hc]))
  ∧ (BaseLink.__eq__ eq_items a (VEntry b) σ = Ok true →
     (item_eq eq_items p p' σ = Ok true → hash_item p σ = hash_item p' σ) →
     (item_eq eq_items ch ch' σ = Ok true → hash_item ch σ = hash_item ch' σ) →
     BaseLink.__hash__ hash_item a σ = BaseLink.__hash__ hash_item b σ)
  ∧ (obj_type oa = obj_type ob → is_ p p' = true → is_ ch ch' = true →
     BaseLink.__eq__ eq_items a (VEntry b) σ = Ok true
     ∧ BaseLink.__hash__ hash_item a σ = BaseLink.__hash__ hash_item b σ).
Proof.
  intros Ha Hb Hlink Hp Hch Hp' Hch'.
  pose proof (link_eq_value _ _ _ _ _ _ _ _ _ Ha Hb Hlink Hp Hch Hp' Hch') as Heq.
  assert (Hiff : BaseLink.__eq__ eq_items a (VEntry b) σ = Ok true
    ↔ obj_type oa = obj_type ob
      ∧ item_eq eq_items p p' σ = Ok true ∧ item_eq eq_items ch ch' σ = Ok true).
  { rewrite Heq. case_bool_decide as Hty.
    - destruct (item_eq eq_items p p' σ) as [[]|e]; split;
        first [by intros (_ & ? & ?) | by intros ?].
    - split; [done|]. by intros (? & _). }
  split; [done|]. split; [|split].
  - intros hp hc Hhp Hhc. by rewrite (link_hash_value _ _ _ _ _ Ha Hp Hch), Hhp, Hhc.
  - intros Htrue Hhp Hhc. apply Hiff in Htrue as (Hty & Hpp & Hcc).
    rewrite (link_hash_value _ _ _ _ _ Ha Hp Hch), (link_hash_value _ _ _ _ _ Hb Hp' Hch').
    by rewrite Hty, (Hhp Hpp), (Hhc Hcc).
  - intros Hty Hpp Hcc. split.
    + apply Hiff. unfold item_eq. by rewrite Hpp, Hcc.
    + rewrite (link_hash_value _ _ _ _ _ Ha Hp Hch), (link_hash_value _ _ _ _ _ Hb Hp' Hch').
      by rewrite Hty, (is_true_eq _ _ Hpp), (is_true_eq _ _ Hcc).
Qed.

End Links.

(** Two links from the first token to the second, with ids 2 and 3: they
    are equal and have the same hash. *)
Lemma link_eq_hash_by_endpoints_witness :
  BaseLink.__eq__ (py_eq 2) 2 (VEntry 3) World.σ_links = Ok true
  ∧ BaseLink.__hash__ (py_hash 2) 2 World.σ_links
    = BaseLink.__hash__ (py_hash 2) 3 World.σ_links
  ∧ Entry.tid 2 World.σ_links = Ok (VInt 2)
  ∧ Entry.tid 3 World.σ_links = Ok (VInt 3).
Proof.
  assert (Htids : Entry.tid 2 World.σ_links = Ok (VInt 2)
                  ∧ Entry.tid 3 World.σ_links = Ok (VInt 3))
    by (vm_compute; split; reflexivity).
  assert (H : entries World.σ_links !! 2 = Some (World.object_at World.σ_links 2)
              ∧ entries World.σ_links !! 3 = Some (World.object_at World.σ_links 3)
              ∧ issubclass (obj_type (World.object_at World.σ_links 3)) BaseLink_qn = true
              ∧ get_parent 2 World.σ_links = Ok (VEntry 0)
              ∧ get_child 2 World.σ_links = Ok (VEntry 1)
              ∧ get_parent 3 World.σ_links = Ok (VEntry 0)
              ∧ get_child 3 World.σ_links = Ok (VEntry 1)
              ∧ obj_type (World.object_at World.σ_links 2)
                = obj_type (World.object_at World.σ_links 3)).
  { vm_compute. repeat split; reflexivity. }
  destruct H as (H2 & H3 & Hlink & Hp & Hch & Hp' & Hch' & Hty).
  pose proof (link_eq_hash_by_endpoints (py_eq 2) (py_hash 2) World.σ_links 2 3
     (World.object_at World.σ_links 2) (World.object_at World.σ_links 3)
     (VEntry 0) (VEntry 1) (VEntry 0) (VEntry 1)
              H2 H3 Hlink Hp Hch Hp' Hch') as HH.
  destruct HH as (_ & _ & _ & Hsame).
  destruct (Hsame Hty eq_refl eq_refl) as [Heq Hhash].
  exact (conj Heq (conj Hhash Htids)).
Defined.

(** C6 on two links of one class whose parents are the two groups of the
    tokens with ids 0 and 8 and whose child is the first token.  The links
    have ids 11 and 12; their parents are equal (same class, same members)
    and their children are the same entry, so [==] between the links
    returns [True], either way round.  [__hash__] hashes the triple of the
    class, the parent and the child, and the parents, though equal, are
    hashed over their members as (0, 8) and as (8, 0): a hash of tuples
    that tells these apart gives the two equal links different hashes.
    The hash of a link is consistent with its equality only as far as the
    hashes of its endpoints are; over groups they are not. *)
Theorem equal_links_hash_apart :
  Entry.tid 11 World.σ_group_links = Ok (VInt 11)
  ∧ Entry.tid 12 World.σ_group_links = Ok (VInt 12)
  ∧ type_of (VEntry 11) World.σ_group_links = Ok World.Dependency
  ∧ type_of (VEntry 12) World.σ_group_links = Ok World.Dependency
  ∧ get_parent 11 World.σ_group_links = Ok (VEntry 9)
  ∧ get_parent 12 World.σ_group_links = Ok (VEntry 10)
  ∧ get_child 11 World.σ_group_links = Ok (VEntry 0)
  ∧ get_child 12 World.σ_group_links = Ok (VEntry 0)
  ∧ (∀ n, py_eq (S n) (VEntry 9) (VEntry 10) World.σ_group_links = Ok true)
  ∧ (∀ n, py_eq (S (S n)) (VEntry 11) (VEntry 12) World.σ_group_links = Ok true
          ∧ py_eq (S (S n)) (VEntry 12) (VEntry 11) World.σ_group_links = Ok true)
  ∧ (∀ (H : Hashing) n,
       py_hash (S (S n)) (VEntry 11) World.σ_group_links
       = Ok (hash_tuple [hash_type World.Dependency;
                         hash_tuple [hash_type World.TokenGroup;
                                     hash_tuple [hash_int 0; hash_int 8]];
                         hash_tuple [hash_type World.Token; hash_int 0]])
       ∧ py_hash (S (S n)) (VEntry 12) World.σ_group_links
         = Ok (hash_tuple [hash_type World.Dependency;
                           hash_tuple [hash_type World.TokenGroup;
                                       hash_tuple [hash_int 8; hash_int 0]];
                           hash_tuple [hash_type World.Token; hash_int 0]]))
  ∧ (∀ n, @py_hash SimplePack simple_pack poly_hash simple_link (S (S n)) (VEntry 11)
            World.σ_group_links
          ≠ @py_hash SimplePack simple_pack poly_hash simple_link (S (S n)) (VEntry 12)
              World.σ_group_links).
Proof.
  do 8 (split; [vm_compute; reflexivity|]).
  split; [intros n; vm_compute; reflexivity|].
  split; [intros n; split; vm_compute; reflexivity|].
  split; [intros H n; split; vm_compute; reflexivity|].
  intros n. vm_compute. discriminate.
Qed.

(** * Comparison with [None] *)

Section EqNone.
Context {P : Type} `{!Container P} `{!Hashing} `{!SetOrder} `{!LinkImpl P}.

(** C9. [__eq__] of [Entry], of [BaseLink] and of [BaseGroup] return
    [False] on [None], whatever the object and the store are and whatever
    the link class does to resolve endpoints; so does [==] on any
    constructed entry. *)
Theorem eq_None_is_False (eq_items : value → value → R P bool) (σ : store P) (self : addr) :
  Entry.__eq__ self VNone σ = Ok false
  ∧ BaseLink.__eq__ eq_items self VNone σ = Ok false
  ∧ BaseGroup.__eq__ self VNone σ = Ok false
  ∧ (∀ n, is_Some (entries σ !! self) → py_eq (S n) (VEntry self) VNone σ = Ok false).
Proof.
  split; [done|]. split; [done|]. split; [done|].
  intros n [o Ho]. simpl. unfold eq_method. unfold_monad.
  rewrite (type_of_entry _ _ _ Ho). by destruct (kind_of (obj_type o)).
Qed.

End EqNone.

(** * Groups: equality and hash over the member set *)

Lemma pyset_eq_true (s t : list Z) :
  NoDup s → NoDup t → pyset_eq s t = true ↔ s ≡ₚ t.
Proof.
  intros Hs Ht. unfold pyset_eq. rewrite andb_true_iff, !bool_decide_eq_true. split.
  - intros [Hlen Hsub]. apply submseteq_length_Permutation; [|by rewrite Hlen].
    by apply NoDup_submseteq.
  - intros Hp. split; [by rewrite Hp|]. intros x. by rewrite Hp.
Qed.

Section GroupIdentity.
Context {P : Type} `{!Container P} `{!Hashing}.
Implicit Types (σ : store P) (o : object) (a b self : addr) (l : list Z).

(** What [__eq__] returns on two groups: the classes are the same and the
    member sets are equal.  The ids of the groups play no part. *)
Lemma group_eq_value σ a b oa ob la lb :
  entries σ !! a = Some oa → entries σ !! b = Some ob →
  issubclass (obj_type ob) BaseGroup_qn = true →
  obj_dict oa !! "_members" = Some (VIntSet la) →
  obj_dict ob !! "_members" = Some (VIntSet lb) →
  BaseGroup.__eq__ a (VEntry b) σ
  = Ok (bool_decide (obj_type oa = obj_type ob) && pyset_eq la lb).
Proof.
  intros Ha Hb Hgroup Hla Hlb.
  unfold BaseGroup.__eq__, BaseGroup.dot_members, BaseGroup.members_tuple, BaseGroup.members.
  unfold_monad. rewrite (type_of_entry _ _ _ Ha), (load_attr_Some _ _ _ _ _ Ha Hla). simpl.
  rewrite (type_of_entry _ _ _ Hb), Hgroup, (load_attr_Some _ _ _ _ _ Hb Hlb). done.
Qed.

(** What [__hash__] returns on a group: the hash of the class and of the
    tuple of the member ids in the order the set yields them. *)
Lemma group_hash_value σ a oa la :
  entries σ !! a = Some oa → obj_dict oa !! "_members" = Some (VIntSet la) →
  BaseGroup.__hash__ a σ
  = Ok (hash_tuple [hash_type (obj_type oa); hash_tuple (hash_int <$> la)]).
Proof.
  intros Ha Hla. unfold BaseGroup.__hash__, BaseGroup.members_tuple, BaseGroup.members.
  unfold_monad. by rewrite (type_of_entry _ _ _ Ha), (load_attr_Some _ _ _ _ _ Ha Hla).
Qed.

(** X20. Two groups of one class with the same members are equal, whatever
    their own ids; their hashes agree when the two sets yield the members
    in the same order. *)
Lemma group_eq_by_members σ a b oa ob la lb :
  entries σ !! a = Some oa → entries σ !! b = Some ob →
  issubclass (obj_type ob) BaseGroup_qn = true →
  obj_dict oa !! "_members" = Some (VIntSet la) →
  obj_dict ob !! "_members" = Some (VIntSet lb) →
  NoDup la → NoDup lb →
  (BaseGroup.__eq__ a (VEntry b) σ = Ok true ↔ obj_type oa = obj_type ob ∧ la ≡ₚ lb)
  ∧ (obj_type oa = obj_type ob → la = lb → BaseGroup.__hash__ a σ = BaseGroup.__hash__ b σ).
Proof.
  intros Ha Hb Hgroup Hla Hlb Hnda Hndb. split.
  - rewrite (group_eq_value _ _ _ _ _ _ _ Ha Hb Hgroup Hla Hlb).
    rewrite <- (pyset_eq_true la lb Hnda Hndb).
    split.
    + intros [= Heq]. apply andb_true_iff in Heq as [Hty Hset].
      by apply bool_decide_eq_true in Hty.
    + intros [Hty Hset]. by rewrite bool_decide_eq_true_2, Hset.
  - intros Hty ->.
    by rewrite (group_hash_value _ _ _ _ Ha Hla), (group_hash_value _ _ _ _ Hb Hlb), Hty.
Qed.

End GroupIdentity.

(** C5 on the two groups of the tokens with ids 0 and 8.  The groups have
    ids 9 and 10, the same class and the same members, and [__eq__] returns
    [True].  The first set yields its members as 0, 8 and the second as
    8, 0, so the two calls of [__hash__] hash the tuples (0, 8) and (8, 0),
    whatever the hash functions are; a hash of tuples that tells these two
    apart gives the two equal groups different hashes. *)
Theorem equal_groups_hash_apart :
  Entry.tid 9 World.σ_groups = Ok (VInt 9)
  ∧ Entry.tid 10 World.σ_groups = Ok (VInt 10)
  ∧ type_of (VEntry 9) World.σ_groups = Ok World.TokenGroup
  ∧ type_of (VEntry 10) World.σ_groups = Ok World.TokenGroup
  ∧ BaseGroup.members 9 World.σ_groups = Ok (VIntSet [0; 8]%Z)
  ∧ BaseGroup.members 10 World.σ_groups = Ok (VIntSet [8; 0]%Z)
  ∧ BaseGroup.__eq__ 9 (VEntry 10) World.σ_groups = Ok true
  ∧ BaseGroup.__eq__ 10 (VEntry 9) World.σ_groups = Ok true
  ∧ (∀ H : Hashing,
       BaseGroup.__hash__ 9 World.σ_groups
       = Ok (hash_tuple [hash_type World.TokenGroup; hash_tuple [hash_int 0; hash_int 8]])
       ∧ BaseGroup.__hash__ 10 World.σ_groups
         = Ok (hash_tuple [hash_type World.TokenGroup; hash_tuple [hash_int 8; hash_int 0]]))
  ∧ @BaseGroup.__hash__ SimplePack simple_pack poly_hash 9 World.σ_groups
    ≠ @BaseGroup.__hash__ SimplePack simple_pack poly_hash 10 World.σ_groups.
Proof.
  do 8 (split; [vm_compute; reflexivity|]).
  split.
  - intros H.
    assert (H9 : entries World.σ_groups !! 9 = Some (World.object_at World.σ_groups 9))
      by (vm_compute; reflexivity).
    assert (H10 : entries World.σ_groups !! 10 = Some (World.object_at World.σ_groups 10))
      by (vm_compute; reflexivity).
    assert (Hm9 : obj_dict (World.object_at World.σ_groups 9) !! "_members"
                  = Some (VIntSet [0; 8]%Z)) by (vm_compute; reflexivity).
    assert (Hm10 : obj_dict (World.object_at World.σ_groups 10) !! "_members"
                   = Some (VIntSet [8; 0]%Z)) by (vm_compute; reflexivity).
    assert (Ht9 : obj_type (World.object_at World.σ_groups 9) = World.TokenGroup)
      by (vm_compute; reflexivity).
    assert (Ht10 : obj_type (World.object_at World.σ_groups 10) = World.TokenGroup)
      by (vm_compute; reflexivity).
    rewrite (group_hash_value _ _ _ _ H9 Hm9), (group_hash_value _ _ _ _ H10 Hm10).
    rewrite Ht9, Ht10. split; reflexivity.
  - vm_compute. intros [=].
Qed.

(** * Groups: resolving the members *)

Section GetMembers.
Context {P : Type} `{!Container P} `{!Hashing} `{!SetOrder}.
Implicit Types (σ : store P) (o g : object) (a self l : addr) (p : P)
  (s acc : list (Z * value)).

Variable eq_items : value → value → R P bool.
Variable hash_item : value → R P Z.

Lemma objset_find_true σ h x s :
  BaseGroup.objset_find eq_items h x s σ = Ok true →
  ∃ k, (h, k) ∈ s ∧ item_eq eq_items k x σ = Ok true.
Proof.
  induction s as [|[h' k] s IH]; simpl; [done|].
  case_bool_decide as Hh.
  - subst h'. unfold_monad.
    destruct (item_eq eq_items k x σ) as [[]|e] eqn:Hk; [|intros Hf|done].
    + intros _. exists k. split; [left|done].
    + destruct (IH Hf) as (k' & Hin & Hk'). exists k'. split; [by right|done].
  - intros Hf. destruct (IH Hf) as (k' & Hin & Hk'). exists k'. split; [by right|done].
Qed.

Lemma objset_find_returns σ h x s :
  (∀ k, ∃ b, eq_items k x σ = Ok b) → ∃ b, BaseGroup.objset_find eq_items h x s σ = Ok b.
Proof.
  intros Htot. induction s as [|[h' k] s IH]; simpl; [by exists false|].
  case_bool_decide; [|done]. unfold_monad. unfold item_eq.
  destruct (is_ k x); [by exists true|].
  destruct (Htot k) as [[] ->]; [by exists true|done].
Qed.

(** Adding an entry to a set of objects: the keys that were there stay,
    the entry is held afterwards, and a new key can only be the entry. *)
Lemma objset_add_entry σ a h s :
  hash_item (VEntry a) σ = Ok h →
  (∀ k, ∃ b, eq_items k (VEntry a) σ = Ok b) →
  ∃ s', BaseGroup.objset_add eq_items hash_item (VEntry a) s σ = Ok s'
        ∧ (∀ e, e ∈ s → e ∈ s')
        ∧ holds eq_items σ s' (VEntry a)
        ∧ (∀ e, e ∈ s' → e ∈ s ∨ e = (h, VEntry a)).
Proof.
  intros Hh Htot. unfold BaseGroup.objset_add. unfold_monad. rewrite Hh.
  destruct (objset_find_returns σ h (VEntry a) s Htot) as [[] Hfind]; rewrite Hfind.
  - exists s. split; [done|]. split; [done|]. split; [|by left].
    destruct (objset_find_true _ _ _ _ Hfind) as (k & Hin & Hk). by exists h, k.
  - exists (set_place (h, VEntry a) s). split; [done|].
    split; [intros e He; rewrite set_place_perm; by right|].
    split.
    + exists h, (VEntry a). split; [rewrite set_place_perm; left|].
      unfold item_eq. simpl. by rewrite bool_decide_eq_true_2.
    + intros e. rewrite set_place_perm. intros He.
      apply elem_of_cons in He as [->|He]; [by right|by left].
Qed.

Lemma holds_mono σ s s' x :
  (∀ e, e ∈ s → e ∈ s') → holds eq_items σ s x → holds eq_items σ s' x.
Proof. intros Hsub (h & k & Hin & Hk). exists h, k. split; [by apply Hsub|done]. Qed.

Lemma resolve_members_attached σ self g l p :
  entries σ !! self = Some g →
  obj_dict g !! "_Entry__pack" = Some (VPack l) → packs σ !! l = Some p →
  ∀ ms acc,
  (∀ m, m ∈ ms → ∃ a h, get_entry m p = Ok a ∧ hash_item (VEntry a) σ = Ok h) →
  (∀ v w, ∃ b, eq_items v w σ = Ok b) →
  ∃ s, BaseGroup.resolve_members eq_items hash_item self ms acc σ = Ok s
       ∧ (∀ e, e ∈ acc → e ∈ s)
       ∧ (∀ m, m ∈ ms → ∃ a, get_entry m p = Ok a ∧ holds eq_items σ s (VEntry a))
       ∧ (∀ e, e ∈ s → e ∈ acc ∨ ∃ m a, m ∈ ms ∧ get_entry m p = Ok a ∧ e.2 = VEntry a).
Proof.
  intros Hg Hpk Hp. induction ms as [|m ms IH]; intros acc Hres Htot.
  - exists acc. split; [done|]. split; [done|]. split; [|by left].
    intros m Hm. by apply not_elem_of_nil in Hm.
  - destruct (Hres m) as (a & h & Ha & Hh); [left|].
    destruct (objset_add_entry σ a h acc Hh (fun k => Htot k (VEntry a)))
      as (acc' & Hadd & Hsub & Hholds & Hnew).
    destruct (IH acc') as (s & Hs & Hsub' & Hall & Hfrom).
    { intros m' Hm'. apply Hres. by right. } { done. }
    exists s. split; [|split; [|split]].
    + simpl. unfold_monad. unfold Entry.pack.
      rewrite (load_attr_Some _ _ _ _ _ Hg Hpk), (receiver_pack _ _ _ _ Hp).
      by rewrite (ask_pack_Some _ _ _ _ Hp), Ha, Hadd.
    + intros e He. by apply Hsub', Hsub.
    + intros m' Hm'. apply elem_of_cons in Hm' as [->|Hm']; [|by apply Hall].
      exists a. split; [done|]. by apply (holds_mono σ acc' s).
    + intros e He. destruct (Hfrom e He) as [He'|(m' & a' & Hm' & Ha' & Hk)].
      * destruct (Hnew e He') as [He''| ->]; [by left|].
        right. exists m, a. split; [left|done].
      * right. exists m', a'. split; [by right|done].
Qed.

(** X18. A group whose container attribute is [None] is not attached: the
    [ValueError] of [get_members]. *)
Lemma get_members_unattached σ self g :
  entries σ !! self = Some g → obj_dict g !! "_Entry__pack" = Some VNone →
  BaseGroup.get_members eq_items hash_item self σ
  = Raise (ValueError BaseGroup.unattached_msg).
Proof.
  intros Hg Hpk. unfold BaseGroup.get_members, Entry.pack. unfold_monad.
  by rewrite (load_attr_Some _ _ _ _ _ Hg Hpk).
Qed.

(** A group that has no container attribute at all: reading it fails
    before the test for [None] is reached. *)
Lemma get_members_without_pack_attribute σ self g :
  entries σ !! self = Some g → obj_dict g !! "_Entry__pack" = None →
  BaseGroup.get_members eq_items hash_item self σ
  = Raise (AttributeError (no_attribute (ty_name (obj_type g)) "_Entry__pack")).
Proof.
  intros Hg Hpk. unfold BaseGroup.get_members, Entry.pack. unfold_monad.
  by rewrite (load_attr_None _ _ _ _ Hg Hpk).
Qed.

(** An attached group whose member ids all resolve: [get_members] returns a
    set that holds the entry of every member id and nothing else. *)
Lemma get_members_attached σ self g l p ms :
  entries σ !! self = Some g →
  obj_dict g !! "_Entry__pack" = Some (VPack l) → packs σ !! l = Some p →
  obj_dict g !! "_members" = Some (VIntSet ms) →
  (∀ m, m ∈ ms → ∃ a h, get_entry m p = Ok a ∧ hash_item (VEntry a) σ = Ok h) →
  (∀ v w, ∃ b, eq_items v w σ = Ok b) →
  ∃ s, BaseGroup.get_members eq_items hash_item self σ = Ok s
       ∧ (∀ m, m ∈ ms → ∃ a, get_entry m p = Ok a ∧ holds eq_items σ s (VEntry a))
       ∧ (∀ e, e ∈ s → ∃ m a, m ∈ ms ∧ get_entry m p = Ok a ∧ e.2 = VEntry a).
Proof.
  intros Hg Hpk Hp Hms Hres Htot.
  destruct (resolve_members_attached σ self g l p Hg Hpk Hp ms [] Hres Htot)
    as (s & Hs & _ & Hall & Hfrom).
  exists s. split; [|split; [done|]].
  - unfold BaseGroup.get_members, Entry.pack, BaseGroup.members_tuple, BaseGroup.members.
    unfold_monad.
    by rewrite (load_attr_Some _ _ _ _ _ Hg Hpk), (load_attr_Some _ _ _ _ _ Hg Hms).
  - intros e He. destruct (Hfrom e He) as [Hnil|]; [|done].
    by apply not_elem_of_nil in Hnil.
Qed.

(** A member id that the container does not resolve: [get_members] fails
    with the container's exception. *)
Lemma get_members_unresolved σ self g l p m ms e :
  entries σ !! self = Some g →
  obj_dict g !! "_Entry__pack" = Some (VPack l) → packs σ !! l = Some p →
  obj_dict g !! "_members" = Some (VIntSet (m :: ms)) →
  get_entry m p = Raise e →
  BaseGroup.get_members eq_items hash_item self σ = Raise e.
Proof.
  intros Hg Hpk Hp Hms Hm.
  unfold BaseGroup.get_members, Entry.pack, BaseGroup.members_tuple, BaseGroup.members.
  unfold_monad.
  rewrite (load_attr_Some _ _ _ _ _ Hg Hpk), (load_attr_Some _ _ _ _ _ Hg Hms). simpl.
  unfold_monad. unfold Entry.pack.
  rewrite (load_attr_Some _ _ _ _ _ Hg Hpk), (receiver_pack _ _ _ _ Hp).
  by rewrite (ask_pack_Some _ _ _ _ Hp), Hm.
Qed.

End GetMembers.

(** C7 on a group of two tokens and the object its snapshot deserializes
    to.  On the attached group [get_members] returns the two tokens.  The
    deserialized object has the members but no container attribute, and
    [get_members] on it fails with the interpreter's [AttributeError] on
    [_Entry__pack], not with the [ValueError] that says the group is not
    attached; that error comes only once [set_pack(None)] has bound the
    attribute to [None]. *)
Theorem get_members_after_deserialization :
  ((fun s => s.*2) <$> BaseGroup.get_members (py_eq 2) (py_hash 2) 2 World.σ_members)
  = Ok [VEntry 0; VEntry 1]
  ∧ BaseGroup.members 3 World.σ_deserialized = Ok (VIntSet [0; 1]%Z)
  ∧ obj_dict (World.object_at World.σ_deserialized 3) !! "_Entry__pack" = None
  ∧ BaseGroup.get_members (py_eq 2) (py_hash 2) 3 World.σ_deserialized
    = Raise (AttributeError "'TokenGroup' object has no attribute '_Entry__pack'")
  ∧ BaseGroup.get_members (py_eq 2) (py_hash 2) 3 World.σ_deserialized
    ≠ Raise (ValueError BaseGroup.unattached_msg)
  ∧ BaseGroup.get_members (py_eq 2) (py_hash 2) 3
      (World.after (Entry.set_pack 3 VNone) World.σ_deserialized)
    = Raise (ValueError
        "Cannot get members because group is not attached to any data pack.").
Proof.
  do 4 (split; [vm_compute; reflexivity|]). split; [|vm_compute; reflexivity].
  vm_compute. intros [=].
Qed.

(** * Construction that goes through, and [reset] *)

(** The object [__init__] leaves has, under every name but the four it
    binds, what the object had before. *)
Lemma initialised_other o t pk k :
  k ∉ init_names → obj_dict (initialised o t pk) !! k = obj_dict o !! k.
Proof.
  unfold init_names. rewrite !not_elem_of_cons. intros (H1 & H2 & H3 & H4 & _). simpl.
  by rewrite !lookup_insert_ne by done.
Qed.

(** X1. A construction that the container admits: the entry has the id the
    allocator gave, an empty embedding, the container and an empty set of
    modified fields, and the container has recorded the creation under that
    id. *)
Theorem construction_admitted {P : Type} `{!Container P} (σ : store P) self l o p :
  entries σ !! self = Some o → packs σ !! l = Some p →
  validate (initialised o (get_next_id p).1 (VPack l)) (get_next_id p).2 = Ok tt →
  Entry.__init__ self (VPack l) σ
  = (Ok tt, Store (<[self := initialised o (get_next_id p).1 (VPack l)]> (entries σ))
                  (<[l := add_entry_creation_record (get_next_id p).1 (get_next_id p).2]>
                     (packs σ)))
  ∧ Entry.tid self (Entry.__init__ self (VPack l) σ).2 = Ok (VInt (get_next_id p).1)
  ∧ Entry.embedding self (Entry.__init__ self (VPack l) σ).2 = Ok (VNdarray [])
  ∧ Entry.pack self (Entry.__init__ self (VPack l) σ).2 = Ok (VPack l).
Proof.
  intros Ho Hp Hval. rewrite (init_outcome _ _ _ _ _ Ho Hp). simpl. rewrite Hval.
  split; [done|]. simpl.
  split; [|split];
    (eapply (load_attr_Some _ _ (initialised o (get_next_id p).1 (VPack l)));
       [apply lookup_insert_eq|]); simpl;
    by rewrite ?lookup_insert_ne, lookup_insert_eq by done.
Qed.

Lemma construction_admitted_witness :
  Entry.tid 0 (Entry.__init__ 0 (VPack World.the_pack) Scenes.σ_new_token).2 = Ok (VInt 0)
  ∧ sp_creation_records
      (World.pack_at (Entry.__init__ 0 (VPack World.the_pack) Scenes.σ_new_token).2
         World.the_pack) = [0%Z].
Proof.
  split; [|vm_compute; reflexivity].
  refine (proj1 (proj2 (construction_admitted Scenes.σ_new_token 0 World.the_pack
    (Obj World.Token ∅) World.pack0 _ _ _))); vm_compute; reflexivity.
Defined.

Section Reset.
Context {P : Type} `{!Container P} `{!Hashing} `{!SetOrder} `{!LinkImpl P}.
Implicit Types (σ : store P) (o : object) (a self l : addr) (p : P).

Lemma reset_dispatch σ self o pk :
  entries σ !! self = Some o → obj_dict o !! "_Entry__pack" = Some pk →
  reset self σ
  = match kind_of (obj_type o) with
    | KEntry => Entry.__init__ self pk σ
    | KLink => BaseLink.__init__ self pk VNone VNone σ
    | KGroup => BaseGroup.__init__ self pk None σ
    end.
Proof.
  intros Ho Hpk. unfold reset, Entry.reset, py_init. unfold_monad.
  rewrite (load_attr_Some _ _ _ _ _ Ho Hpk), (type_of_entry _ _ _ Ho).
  by destruct (kind_of (obj_type o)).
Qed.

(** X2. [reset] on an attached entry that is no group, admitted again by the
    container: the entry takes the container's next id, its embedding and
    its set of modified fields are empty again, and the container records
    one more creation.  Every other attribute, such as the endpoints of a
    link or an attribute of a concrete class, is what it was. *)
Theorem reset_rebinds_the_four σ self o l p :
  entries σ !! self = Some o → kind_of (obj_type o) ≠ KGroup →
  obj_dict o !! "_Entry__pack" = Some (VPack l) → packs σ !! l = Some p →
  validate (initialised o (get_next_id p).1 (VPack l)) (get_next_id p).2 = Ok tt →
  reset self σ
  = (Ok tt, Store (<[self := initialised o (get_next_id p).1 (VPack l)]> (entries σ))
                  (<[l := add_entry_creation_record (get_next_id p).1 (get_next_id p).2]>
                     (packs σ)))
  ∧ (∀ k, k ∉ init_names →
       obj_dict (initialised o (get_next_id p).1 (VPack l)) !! k = obj_dict o !! k).
Proof.
  intros Ho Hkind Hpk Hp Hval. split; [|intros k; apply initialised_other].
  rewrite (reset_dispatch _ _ _ _ Ho Hpk).
  destruct (kind_of (obj_type o)) eqn:Hk; [| |done].
  - rewrite (init_outcome _ _ _ _ _ Ho Hp). simpl. by rewrite Hval.
  - rewrite (link_init_no_endpoints _ _ _ _ Ho (kind_link_issubclass _ Hk)).
    rewrite (init_outcome _ _ _ _ _ Ho Hp). simpl. by rewrite Hval.
Qed.

(** X3. [reset] on an attached group, admitted again by the container: as for
    an entry, and the member set is empty afterwards. *)
Theorem reset_empties_group σ self o l p :
  entries σ !! self = Some o → kind_of (obj_type o) = KGroup →
  obj_dict o !! "_Entry__pack" = Some (VPack l) → packs σ !! l = Some p →
  validate (initialised o (get_next_id p).1 (VPack l)) (get_next_id p).2 = Ok tt →
  (reset self σ).1 = Ok tt
  ∧ BaseGroup.members self (reset self σ).2 = Ok (VIntSet [])
  ∧ Entry.tid self (reset self σ).2 = Ok (VInt (get_next_id p).1)
  ∧ packs (reset self σ).2 !! l
    = Some (add_entry_creation_record (get_next_id p).1 (get_next_id p).2).
Proof.
  intros Ho Hkind Hpk Hp Hval.
  rewrite (reset_dispatch _ _ _ _ Ho Hpk), Hkind.
  unfold BaseGroup.__init__. unfold_monad.
  rewrite (init_outcome _ _ _ _ _ Ho Hp). simpl. rewrite Hval.
  unfold store_attr. simpl. rewrite lookup_insert_eq. simpl.
  split; [done|]. rewrite insert_insert_eq.
  split; [|split].
  - eapply load_attr_Some; [apply lookup_insert_eq|]. apply lookup_insert_eq.
  - eapply load_attr_Some; [apply lookup_insert_eq|]. simpl.
    by rewrite !lookup_insert_ne, lookup_insert_eq by done.
  - apply lookup_insert_eq.
Qed.

(** X4. [reset] on an entry whose container is [None]: the call fails on
    [get_next_id] before anything is bound, and the store is as it was. *)
Theorem reset_detached σ self o :
  entries σ !! self = Some o → obj_dict o !! "_Entry__pack" = Some VNone →
  reset self σ
  = (Raise (AttributeError "'NoneType' object has no attribute 'get_next_id'"), σ).
Proof.
  intros Ho Hpk. rewrite (reset_dispatch _ _ _ _ Ho Hpk).
  destruct (kind_of (obj_type o)) eqn:Hk; [done| |done].
  by rewrite (link_init_no_endpoints _ _ _ _ Ho (kind_link_issubclass _ Hk)).
Qed.

End Reset.

Lemma reset_rebinds_the_four_witness :
  (reset 0 Scenes.σ_word).1 = Ok tt
  ∧ Entry.tid 0 (reset 0 Scenes.σ_word).2 = Ok (VInt 2)
  ∧ load_attr 0 "text" (reset 0 Scenes.σ_word).2 = Ok (VStr "word").
Proof.
  assert (H : entries Scenes.σ_word !! 0 = Some (World.object_at Scenes.σ_word 0)
              ∧ kind_of (obj_type (World.object_at Scenes.σ_word 0)) ≠ KGroup
              ∧ obj_dict (World.object_at Scenes.σ_word 0) !! "_Entry__pack"
                = Some (VPack World.the_pack)
              ∧ packs Scenes.σ_word !! World.the_pack
                = Some (World.pack_at Scenes.σ_word World.the_pack)
              ∧ validate (initialised (World.object_at Scenes.σ_word 0)
                            (get_next_id (World.pack_at Scenes.σ_word World.the_pack)).1
                            (VPack World.the_pack))
                  (get_next_id (World.pack_at Scenes.σ_word World.the_pack)).2 = Ok tt).
  { vm_compute. repeat split; try reflexivity. intros [=]. }
  destruct H as (Ho & Hk & Hpk & Hp & Hval).
  destruct (reset_rebinds_the_four Scenes.σ_word 0 _ _ _ Ho Hk Hpk Hp Hval) as [Hreset _].
  rewrite Hreset. vm_compute. repeat split; reflexivity.
Defined.

Lemma reset_empties_group_witness :
  (reset 2 World.σ_members).1 = Ok tt
  ∧ BaseGroup.members 2 World.σ_members = Ok (VIntSet [0; 1]%Z)
  ∧ BaseGroup.members 2 (reset 2 World.σ_members).2 = Ok (VIntSet []).
Proof.
  assert (H : entries World.σ_members !! 2 = Some (World.object_at World.σ_members 2)
              ∧ kind_of (obj_type (World.object_at World.σ_members 2)) = KGroup
              ∧ obj_dict (World.object_at World.σ_members 2) !! "_Entry__pack"
                = Some (VPack World.the_pack)
              ∧ packs World.σ_members !! World.the_pack
                = Some (World.pack_at World.σ_members World.the_pack)
              ∧ validate (initialised (World.object_at World.σ_members 2)
                            (get_next_id (World.pack_at World.σ_members World.the_pack)).1
                            (VPack World.the_pack))
                  (get_next_id (World.pack_at World.σ_members World.the_pack)).2 = Ok tt)
    by (vm_compute; repeat split; reflexivity).
  destruct H as (Ho & Hk & Hpk & Hp & Hval).
  destruct (reset_empties_group World.σ_members 2 _ _ _ Ho Hk Hpk Hp Hval)
    as (Hok & Hmem & _).
  split; [exact Hok|]. split; [vm_compute; reflexivity|exact Hmem].
Defined.

Lemma reset_detached_witness :
  reset 0 Scenes.σ_detached
  = (Raise (AttributeError "'NoneType' object has no attribute 'get_next_id'"),
     Scenes.σ_detached).
Proof.
  apply (reset_detached Scenes.σ_detached 0 (World.object_at Scenes.σ_detached 0));
    vm_compute; reflexivity.
Defined.

(** * More on fields, the embedding and snapshots *)

Section FieldsMore.
Context {P : Type} `{!Container P}.
Implicit Types (σ : store P) (o : object) (a self l : addr) (p : P).

Lemma private_not_read_only c name :
  name ∈ init_names → name ∉ Entry.read_only_properties c.
Proof.
  unfold init_names, Entry.read_only_properties. intros Hin Hro.
  repeat (apply elem_of_cons in Hin as [->|Hin]); [..|by apply not_elem_of_nil in Hin];
    (apply elem_of_app in Hro as [Hro|Hro];
     [|destruct (issubclass c BaseGroup_qn)];
     repeat (apply elem_of_cons in Hro as [Hro|Hro]; [discriminate|]);
     by apply not_elem_of_nil in Hro).
Qed.

(** X5. The [embedding] setter on a list of floats: the getter returns the
    vector of these floats, a snapshot taken afterwards holds the list
    again, and the container is not told (no field is recorded). *)
Theorem embedding_set_then_read σ self o xs pk fm :
  entries σ !! self = Some o →
  obj_dict o !! "_Entry__pack" = Some pk →
  obj_dict o !! "_Entry__field_modified" = Some fm →
  Entry.set_embedding self (VFloatList xs) σ
  = (Ok tt, rebind self o "_embedding" (VNdarray xs) σ)
  ∧ Entry.embedding self (rebind self o "_embedding" (VNdarray xs) σ) = Ok (VNdarray xs)
  ∧ (∃ state, Entry.__getstate__ self (rebind self o "_embedding" (VNdarray xs) σ) = Ok state
              ∧ state !! "_embedding" = Some (VFloatList xs))
  ∧ packs (rebind self o "_embedding" (VNdarray xs) σ) = packs σ.
Proof.
  intros Ho Hpk Hfm.
  assert (Ho' : entries (rebind self o "_embedding" (VNdarray xs) σ) !! self
                = Some (Obj (obj_type o) (<["_embedding" := VNdarray xs]> (obj_dict o))))
    by apply lookup_insert_eq.
  split; [|split; [|split; [|done]]].
  - unfold Entry.set_embedding. unfold_monad. simpl.
    by rewrite (store_attr_Some _ _ _ _ _ Ho).
  - eapply load_attr_Some; [exact Ho'|]. apply lookup_insert_eq.
  - eexists. split.
    + apply (getstate_value _ _ _ xs pk fm Ho'); simpl.
      * apply lookup_insert_eq.
      * by rewrite lookup_insert_ne.
      * by rewrite lookup_insert_ne.
    + rewrite !lookup_delete_ne by done. apply lookup_insert_eq.
Qed.

(** X6. [set_fields(_embedding=[...])] binds the list as it is, without the
    conversion the setter makes; the call goes through, and a snapshot of
    the entry then fails, a list having no [tolist]. *)
Theorem raw_embedding_breaks_getstate σ self o l p t xs :
  entries σ !! self = Some o →
  "_embedding" ∈ dom (obj_dict o) →
  obj_dict o !! "_Entry__pack" = Some (VPack l) → packs σ !! l = Some p →
  obj_dict o !! "_tid" = Some (VInt t) →
  (Entry.set_fields self [("_embedding", VFloatList xs)] σ).1 = Ok tt
  ∧ Entry.embedding self (Entry.set_fields self [("_embedding", VFloatList xs)] σ).2
    = Ok (VFloatList xs)
  ∧ Entry.__getstate__ self (Entry.set_fields self [("_embedding", VFloatList xs)] σ).2
    = Raise (AttributeError "'list' object has no attribute 'tolist'").
Proof.
  intros Ho Hdom Hpk Hp Ht. simpl. unfold_monad.
  rewrite (set_field_known _ _ _ "_embedding" (VFloatList xs) l p t Ho Hdom);
    [|done|apply private_not_read_only; set_solver
     |by rewrite lookup_insert_ne|done|by rewrite lookup_insert_ne].
  simpl. split; [done|].
  set (σ' := Store _ _).
  assert (Ho' : entries σ' !! self
                = Some (Obj (obj_type o) (<["_embedding" := VFloatList xs]> (obj_dict o))))
    by apply lookup_insert_eq.
  split.
  - eapply load_attr_Some; [exact Ho'|]. apply lookup_insert_eq.
  - unfold Entry.__getstate__. unfold_monad.
    rewrite (vars_entry _ _ _ Ho').
    rewrite (load_attr_Some _ _ _ "_embedding" (VFloatList xs) Ho') by apply lookup_insert_eq.
    done.
Qed.



(** What a run of assignments leaves under a name it does not assign, and
    under a name it assigns once. *)
Lemma assign_all_other kwargs : ∀ (d : gmap string value) name,
  name ∉ kwargs.*1 → assign_all d kwargs !! name = d !! name.
Proof.
  induction kwargs as [|[n v] kwargs IH]; intros d name Hname; [done|].
  simpl in Hname. apply not_elem_of_cons in Hname as [Hne Hname].
  unfold assign_all. simpl. fold (assign_all (<[n := v]> d) kwargs).
  rewrite (IH _ _ Hname). by rewrite lookup_insert_ne.
Qed.

Lemma assign_all_once kwargs : ∀ (d : gmap string value) name v,
  NoDup kwargs.*1 → (name, v) ∈ kwargs → assign_all d kwargs !! name = Some v.
Proof.
  induction kwargs as [|[n w] kwargs IH]; intros d name v Hnd Hin.
  - by apply elem_of_nil in Hin.
  - simpl in Hnd. apply NoDup_cons in Hnd as [Hfresh Hnd].
    unfold assign_all. simpl. fold (assign_all (<[n := w]> d) kwargs).
    apply elem_of_cons in Hin as [Heq|Hin].
    + injection Heq as -> ->. rewrite (assign_all_other _ _ _ Hfresh).
      apply lookup_insert_eq.
    + by apply IH.
Qed.

(** [set_fields] on names that are all plain fields of the entry, pair by
    pair. *)
Lemma set_fields_plain_run self l t kwargs :
  ∀ σ o p,
  entries σ !! self = Some o →
  obj_dict o !! "_Entry__pack" = Some (VPack l) → packs σ !! l = Some p →
  obj_dict o !! "_tid" = Some (VInt t) →
  Forall (plain_field o) kwargs →
  Entry.set_fields self kwargs σ
  = (Ok tt, Store (<[self := Obj (obj_type o) (assign_all (obj_dict o) kwargs)]> (entries σ))
                  (<[l := record_all t p kwargs]> (packs σ))).
Proof.
  induction kwargs as [|[name v] kwargs IH]; intros σ o p Ho Hpk Hp Ht Hall.
  - simpl. unfold_monad. destruct σ as [E K], o as [ty d]. simpl in *.
    by rewrite !insert_id.
  - apply Forall_cons in Hall as [(Hdom & Hname & Hro) Hall]. simpl in Hdom, Hname, Hro.
    rewrite !not_elem_of_cons in Hname. destruct Hname as (Hn1 & Hn2 & Hn3 & _).
    simpl. unfold_monad.
    rewrite (set_field_known _ _ _ name v l p t Ho Hdom Hn3 Hro);
      [|by rewrite lookup_insert_ne|done|by rewrite lookup_insert_ne].
    set (o1 := Obj (obj_type o) (<[name := v]> (obj_dict o))).
    rewrite (IH _ o1 (add_field_record t name p)).
    + simpl. by rewrite !insert_insert_eq.
    + apply lookup_insert_eq.
    + simpl. by rewrite lookup_insert_ne.
    + apply lookup_insert_eq.
    + simpl. by rewrite lookup_insert_ne.
    + eapply Forall_impl; [exact Hall|]. intros kv (Hd & Hn & Hr).
      split; [|done]. simpl. rewrite dom_insert_L. set_solver.
Qed.

(** X8. A call of [set_fields] with keyword arguments (so no name comes
    twice) all of whose names are attributes of the entry, none of them the
    id, the container or a property: the call returns, the entry has under
    every name of the call the value given and under every other name what
    it had, and the container has recorded every name, in call order, under
    the entry's id. *)
Theorem set_fields_all_known self l t kwargs σ o p :
  entries σ !! self = Some o →
  obj_dict o !! "_Entry__pack" = Some (VPack l) → packs σ !! l = Some p →
  obj_dict o !! "_tid" = Some (VInt t) →
  NoDup kwargs.*1 →
  Forall (plain_field o) kwargs →
  Entry.set_fields self kwargs σ
  = (Ok tt, Store (<[self := Obj (obj_type o) (assign_all (obj_dict o) kwargs)]> (entries σ))
                  (<[l := record_all t p kwargs]> (packs σ)))
  ∧ (∀ name v, (name, v) ∈ kwargs → assign_all (obj_dict o) kwargs !! name = Some v)
  ∧ (∀ name, name ∉ kwargs.*1 → assign_all (obj_dict o) kwargs !! name = obj_dict o !! name).
Proof.
  intros Ho Hpk Hp Ht Hnd Hall.
  split; [by apply set_fields_plain_run|].
  split; [intros name v; by apply assign_all_once|].
  intros name; apply assign_all_other.
Qed.

(** X9. [set_fields] on an entry that has no container attribute, as
    deserialization leaves it: a known name is bound to its value, then the
    call fails on reading the container, and the rest of the arguments is
    not looked at. *)
Theorem set_fields_without_container σ self o name v rest :
  entries σ !! self = Some o → name ∈ dom (obj_dict o) →
  name ≠ "embedding" → name ∉ Entry.read_only_properties (obj_type o) →
  name ≠ "_Entry__pack" → obj_dict o !! "_Entry__pack" = None →
  Entry.set_fields self ((name, v) :: rest) σ
  = (Raise (AttributeError (no_attribute (ty_name (obj_type o)) "_Entry__pack")),
     rebind self o name v σ).
Proof.
  intros Ho Hdom Hemb Hro Hname Hpk. simpl. unfold Entry.set_field, Entry.setattr.
  unfold_monad. rewrite (vars_entry _ _ _ Ho). rewrite decide_True by done.
  rewrite (deref_Some _ _ _ Ho). rewrite !decide_False by done.
  rewrite (store_attr_Some _ _ _ _ _ Ho).
  rewrite (load_attr_None _ _ (Obj (obj_type o) (<[name := v]> (obj_dict o)))
             "_Entry__pack"); [done|apply lookup_insert_eq|].
  simpl. by rewrite lookup_insert_ne.
Qed.

(** X10. [get_field] returns what [set_fields] has just bound. *)
Theorem get_field_after_set_fields (names : pytype → list string) σ self o name v l p t :
  entries σ !! self = Some o → name ∈ dom (obj_dict o) →
  name ≠ "embedding" → name ∉ Entry.read_only_properties (obj_type o) →
  <[name := v]> (obj_dict o) !! "_Entry__pack" = Some (VPack l) →
  packs σ !! l = Some p →
  <[name := v]> (obj_dict o) !! "_tid" = Some (VInt t) →
  (Entry.set_fields self [(name, v)] σ).1 = Ok tt
  ∧ get_field names self name (Entry.set_fields self [(name, v)] σ).2 = Ok v.
Proof.
  intros Ho Hdom Hemb Hro Hpk Hp Ht. simpl. unfold_monad.
  rewrite (set_field_known _ _ _ name v l p t Ho Hdom Hemb Hro Hpk Hp Ht). simpl.
  split; [done|].
  unfold get_field, getattr. unfold_monad. unfold deref at 1. simpl.
  rewrite lookup_insert_eq. simpl.
  unfold Entry.read_only_properties in Hro.
  apply not_elem_of_app in Hro as [Hro Hgroup].
  rewrite !not_elem_of_cons in Hro. destruct Hro as (H1 & H2 & H3 & H4 & _).
  rewrite !decide_False by done.
  destruct (issubclass (obj_type o) BaseGroup_qn) eqn:Hsub.
  - rewrite bool_decide_eq_false_2; [|intros ->; apply Hgroup; left].
    simpl. by rewrite lookup_insert_eq.
  - rewrite andb_false_r. by rewrite lookup_insert_eq.
Qed.

(** X11. [__setstate__] on a state without [_embedding]: a [KeyError], after the
    set of modified fields was already emptied; nothing of the state is
    taken over. *)
Theorem setstate_without_embedding σ self o state :
  entries σ !! self = Some o → state !! "_embedding" = None →
  Entry.__setstate__ self state σ
  = (Raise (KeyError "_embedding"),
     rebind self o "_Entry__field_modified" (VStrSet []) σ).
Proof.
  intros Ho Hnone. unfold Entry.__setstate__, dict_get. unfold_monad.
  rewrite (store_attr_Some _ _ _ _ _ Ho). by rewrite Hnone.
Qed.

(** X12. A deserialized entry cannot be serialized again before it is attached:
    [__getstate__] fails on popping the container.  Once [set_pack] has
    attached it, to any container, its snapshot is the snapshot it was made
    from. *)
Theorem reserialize_needs_container σ self o emb pk fm :
  entries σ !! self = Some o →
  obj_dict o !! "_embedding" = Some (VNdarray emb) →
  obj_dict o !! "_Entry__pack" = Some pk →
  obj_dict o !! "_Entry__field_modified" = Some fm →
  ∃ state σ',
    Entry.__getstate__ self σ = Ok state
    ∧ deserialize (obj_type o, state) σ = (Ok (fresh_addr σ), σ')
    ∧ Entry.__getstate__ (fresh_addr σ) σ' = Raise (KeyError "_Entry__pack")
    ∧ ∀ pk', Entry.__getstate__ (fresh_addr σ) (Entry.set_pack (fresh_addr σ) pk' σ').2
             = Ok state.
Proof.
  intros Ho Hemb Hpk Hfm.
  set (state := delete "_Entry__field_modified"
          (delete "_Entry__pack" (<["_embedding" := VFloatList emb]> (obj_dict o)))).
  assert (Hst : state !! "_embedding" = Some (VFloatList emb)).
  { unfold state. rewrite !lookup_delete_ne by done. apply lookup_insert_eq. }
  eexists state, _. split; [by apply getstate_value with pk fm|].
  split; [unfold deserialize; simpl; apply (setstate_new _ _ _ _ Hst)|].
  set (d' := <["_embedding" := VNdarray emb]> state ∪ {["_Entry__field_modified" := VStrSet []]}).
  set (σ' := Store _ _).
  assert (Ho' : entries σ' !! fresh_addr σ = Some (Obj (obj_type o) d'))
    by apply lookup_insert_eq.
  assert (Hd'emb : d' !! "_embedding" = Some (VNdarray emb)).
  { unfold d'. by rewrite lookup_union, lookup_insert_eq, lookup_singleton_ne. }
  assert (Hd'pk : d' !! "_Entry__pack" = None).
  { unfold d'. rewrite lookup_union, lookup_insert_ne, lookup_singleton_ne by done.
    unfold state. rewrite lookup_delete_ne by done. by rewrite lookup_delete_eq. }
  assert (Hd'fm : d' !! "_Entry__field_modified" = Some (VStrSet [])).
  { unfold d'. rewrite lookup_union, lookup_insert_ne, lookup_singleton_eq by done.
    unfold state. by rewrite lookup_delete_eq. }
  split.
  - unfold Entry.__getstate__. unfold_monad.
    rewrite (vars_entry _ _ _ Ho'), (load_attr_Some _ _ _ _ _ Ho' Hd'emb). simpl.
    unfold dict_pop at 1. by rewrite lookup_insert_ne, Hd'pk by done.
  - intros pk'. unfold Entry.set_pack. rewrite (store_attr_Some _ _ _ _ _ Ho'). simpl.
    erewrite (getstate_value _ _ _ emb pk' (VStrSet []));
      [|apply lookup_insert_eq|simpl; by rewrite lookup_insert_ne
       |simpl; apply lookup_insert_eq|simpl; by rewrite lookup_insert_ne].
    f_equal. simpl. apply map_eq. intros k.
    destruct (decide (k = "_Entry__field_modified")) as [->|Hk1].
    { unfold state. by rewrite !lookup_delete_eq. }
    rewrite lookup_delete_ne by done.
    destruct (decide (k = "_Entry__pack")) as [->|Hk2].
    { rewrite lookup_delete_eq. unfold state.
      rewrite lookup_delete_ne by done. by rewrite lookup_delete_eq. }
    rewrite lookup_delete_ne by done.
    destruct (decide (k = "_embedding")) as [->|Hk3].
    { by rewrite lookup_insert_eq, Hst. }
    rewrite !lookup_insert_ne by done. unfold d'.
    rewrite lookup_union, lookup_insert_ne, lookup_singleton_ne by done.
    by destruct (state !! k).
Qed.

End FieldsMore.

Lemma embedding_set_then_read_witness :
  Entry.embedding 0
    (rebind 0 (World.object_at World.σ_tokens 0) "_embedding" (VNdarray [1.5; -2]%float)
       World.σ_tokens)
  = Ok (VNdarray [1.5; -2]%float).
Proof.
  refine (proj1 (proj2 (embedding_set_then_read World.σ_tokens 0
    (World.object_at World.σ_tokens 0) [1.5; -2]%float (VPack World.the_pack) (VStrSet [])
    _ _ _))); vm_compute; reflexivity.
Defined.

Lemma raw_embedding_breaks_getstate_witness :
  Entry.__getstate__ 0
    (Entry.set_fields 0 [("_embedding", VFloatList [1.5]%float)] World.σ_tokens).2
  = Raise (AttributeError "'list' object has no attribute 'tolist'").
Proof.
  refine (proj2 (proj2 (raw_embedding_breaks_getstate World.σ_tokens 0
    (World.object_at World.σ_tokens 0) World.the_pack
    (World.pack_at World.σ_tokens World.the_pack) 0 [1.5]%float _ _ _ _ _)));
    first [vm_compute; reflexivity | by_decide].
Defined.


Lemma set_fields_all_known_witness :
  load_attr 0 "text"
    (Entry.set_fields 0 [("text", VStr "b"); ("_embedding", VNdarray [1.5]%float)]
       Scenes.σ_word).2 = Ok (VStr "b")
  ∧ sp_field_records
      (World.pack_at
         (Entry.set_fields 0 [("text", VStr "b"); ("_embedding", VNdarray [1.5]%float)]
            Scenes.σ_word).2 World.the_pack)
    = [(0%Z, "text"); (0%Z, "_embedding")].
Proof.
  unshelve epose proof (set_fields_all_known 0 World.the_pack 0
             [("text", VStr "b"); ("_embedding", VNdarray [1.5]%float)]
             Scenes.σ_word (World.object_at Scenes.σ_word 0)
             (World.pack_at Scenes.σ_word World.the_pack) _ _ _ _ _ _) as Hrun.
  - vm_compute; reflexivity.
  - vm_compute; reflexivity.
  - vm_compute; reflexivity.
  - vm_compute; reflexivity.
  - by_decide.
  - unfold plain_field. repeat constructor; by_decide.
  - rewrite (proj1 Hrun). vm_compute. split; reflexivity.
Defined.

Lemma set_fields_without_container_witness :
  Entry.set_fields 3 [("_embedding", VNdarray []); ("_tid", VInt 5)] World.σ_deserialized
  = (Raise (AttributeError "'TokenGroup' object has no attribute '_Entry__pack'"),
     rebind 3 (World.object_at World.σ_deserialized 3) "_embedding" (VNdarray [])
       World.σ_deserialized).
Proof.
  apply (set_fields_without_container World.σ_deserialized 3
           (World.object_at World.σ_deserialized 3) "_embedding" (VNdarray [])
           [("_tid", VInt 5)]);
    first [vm_compute; reflexivity | by_decide].
Defined.

Lemma get_field_after_set_fields_witness :
  get_field Scenes.no_names 0 "text"
    (Entry.set_fields 0 [("text", VStr "b")] Scenes.σ_word).2 = Ok (VStr "b").
Proof.
  refine (proj2 (get_field_after_set_fields Scenes.no_names Scenes.σ_word 0
    (World.object_at Scenes.σ_word 0) "text" (VStr "b") World.the_pack
    (World.pack_at Scenes.σ_word World.the_pack) 0 _ _ _ _ _ _ _));
    first [vm_compute; reflexivity | by_decide].
Defined.

Lemma setstate_without_embedding_witness :
  Entry.__setstate__ 0 ∅ Scenes.σ_new_token
  = (Raise (KeyError "_embedding"),
     rebind 0 (Obj World.Token ∅) "_Entry__field_modified" (VStrSet []) Scenes.σ_new_token).
Proof.
  apply (setstate_without_embedding Scenes.σ_new_token 0 (Obj World.Token ∅) ∅);
    vm_compute; reflexivity.
Defined.

Lemma reserialize_needs_container_witness :
  ∃ state σ',
    Entry.__getstate__ 0 World.σ_embedded = Ok state
    ∧ deserialize (obj_type (World.object_at World.σ_embedded 0), state) World.σ_embedded
      = (Ok (fresh_addr World.σ_embedded), σ')
    ∧ Entry.__getstate__ (fresh_addr World.σ_embedded) σ' = Raise (KeyError "_Entry__pack")
    ∧ ∀ pk', Entry.__getstate__ (fresh_addr World.σ_embedded)
               (Entry.set_pack (fresh_addr World.σ_embedded) pk' σ').2 = Ok state.
Proof.
  apply (reserialize_needs_container World.σ_embedded 0
           (World.object_at World.σ_embedded 0) [1.5; -2]%float (VPack World.the_pack)
           (VStrSet []));
    vm_compute; reflexivity.
Defined.

(** * Groups: bulk adds and the constructor *)

Section BulkAdd.
Context {P : Type} `{!Container P} `{!SetOrder}.
Implicit Types (σ : store P) (o g m : object) (a self bad : addr) (l : list Z).

Lemma add_one_accepted σ self g T l c t :
  entries σ !! self = Some g → ty_MemberType (obj_type g) = Some T →
  obj_dict g !! "_members" = Some (VIntSet l) →
  accepted_id σ T c = Some t →
  BaseGroup.add_one self c σ
  = (Ok tt, rebind self g "_members" (VIntSet (pyset_add t l)) σ).
Proof.
  intros Hg HT Hl Hacc. destruct c as [| | | | | | |b|]; try done. simpl in Hacc.
  destruct (entries σ !! b) as [m|] eqn:Hm; [|done].
  destruct (issubclass (obj_type m) T) eqn:Hsub; [|done].
  destruct (obj_dict m !! "_tid") as [[]|] eqn:Ht; try done. injection Hacc as ->.
  unfold BaseGroup.add_one, BaseGroup.MemberType, BaseGroup.members_add, Entry.dot_tid,
    Entry.tid. unfold_monad.
  rewrite (type_of_entry _ _ _ Hg), HT, (type_of_entry _ _ _ Hm), Hsub. simpl.
  rewrite (load_attr_Some _ _ _ _ _ Hg Hl), (load_attr_Some _ _ _ _ _ Hm Ht). simpl.
  by rewrite (store_attr_Some _ _ _ _ _ Hg).
Qed.

Lemma add_one_mismatch σ self g T bad m :
  entries σ !! self = Some g → ty_MemberType (obj_type g) = Some T →
  entries σ !! bad = Some m → issubclass (obj_type m) T = false →
  BaseGroup.add_one self (VEntry bad) σ
  = (Raise (TypeError (BaseGroup.member_type_msg (obj_type g) T (obj_type m))), σ).
Proof.
  intros Hg HT Hm Hsub. unfold BaseGroup.add_one, BaseGroup.MemberType. unfold_monad.
  rewrite (type_of_entry _ _ _ Hg), HT, (type_of_entry _ _ _ Hm), Hsub. simpl.
  by rewrite (type_of_entry _ _ _ Hg).
Qed.

Lemma rebind_type_at σ self g v a m :
  entries σ !! self = Some g → entries σ !! a = Some m →
  ∃ m', entries (rebind self g "_members" v σ) !! a = Some m' ∧ obj_type m' = obj_type m.
Proof.
  intros Hg Hm. unfold rebind. simpl. destruct (decide (self = a)) as [->|Hne].
  - rewrite lookup_insert_eq. eexists. split; [done|]. by simplify_eq.
  - rewrite lookup_insert_ne by done. eauto.
Qed.

(** X13. [add_members] on candidates that are all accepted returns, in the
    store a run of single [add_member] calls leaves; the member set then
    holds, once each, the ids it had and the ids of the candidates. *)
Theorem add_members_all_accepted self T members :
  ∀ σ g l,
  entries σ !! self = Some g → ty_MemberType (obj_type g) = Some T →
  obj_dict g !! "_members" = Some (VIntSet l) → NoDup l →
  Forall (fun c => is_Some (accepted_id σ T c)) members →
  BaseGroup.add_members self members σ = (Ok tt, add_each self members σ)
  ∧ ∃ l', BaseGroup.members self (add_each self members σ) = Ok (VIntSet l')
          ∧ NoDup l'
          ∧ ∀ x, x ∈ l' ↔ x ∈ l ∨ ∃ c, c ∈ members ∧ accepted_id σ T c = Some x.
Proof.
  intros σ g l Hg HT Hl Hnd Hall. split.
  - revert σ g l Hg HT Hl Hnd Hall.
    induction members as [|c cs IH]; intros σ g l Hg HT Hl Hnd Hall; [done|].
    apply Forall_cons in Hall as [[t Hacc] Hall].
    simpl. unfold_monad. rewrite (add_one_accepted _ _ _ _ _ _ _ Hg HT Hl Hacc).
    unfold add_each. simpl. fold (add_each self cs).
    rewrite (add_member_store _ _ _ _ _ _ Hg HT Hl), Hacc.
    apply (IH _ (Obj (obj_type g) (<["_members" := VIntSet (pyset_add t l)]> (obj_dict g)))
              (pyset_add t l)).
    + apply rebind_lookup.
    + done.
    + apply lookup_insert_eq.
    + by apply NoDup_pyset_add.
    + eapply Forall_impl; [exact Hall|]. intros c'.
      by rewrite (accepted_id_rebind _ _ _ _ _ _ Hg).
  - destruct (add_each_members self T members σ g l Hg HT Hl Hnd) as (l' & Hl' & Hnd' & Hin).
    exists l'. split; [|done].
    eapply load_attr_Some; [exact Hl'|]. apply lookup_insert_eq.
Qed.

(** X14. [add_members] stops at the first candidate that is no instance of the
    member type: it raises the type error for that candidate, the
    candidates before it are in the set, and those after it are not looked
    at. *)
Theorem add_members_stops_at_mismatch self T pre bad post cm :
  ∀ σ g l,
  entries σ !! self = Some g → ty_MemberType (obj_type g) = Some T →
  obj_dict g !! "_members" = Some (VIntSet l) →
  Forall (fun c => is_Some (accepted_id σ T c)) pre →
  (∃ m, entries σ !! bad = Some m ∧ obj_type m = cm) → issubclass cm T = false →
  BaseGroup.add_members self (pre ++ VEntry bad :: post) σ
  = (Raise (TypeError (BaseGroup.member_type_msg (obj_type g) T cm)), add_each self pre σ).
Proof.
  induction pre as [|c cs IH]; intros σ g l Hg HT Hl Hall (m & Hm & Hcm) Hsub.
  - simpl. unfold_monad. subst cm.
    by rewrite (add_one_mismatch _ _ _ _ _ _ Hg HT Hm Hsub).
  - apply Forall_cons in Hall as [[t Hacc] Hall].
    simpl. unfold_monad. rewrite (add_one_accepted _ _ _ _ _ _ _ Hg HT Hl Hacc).
    unfold add_each. simpl. fold (add_each self cs).
    rewrite (add_member_store _ _ _ _ _ _ Hg HT Hl), Hacc.
    apply (IH _ (Obj (obj_type g) (<["_members" := VIntSet (pyset_add t l)]> (obj_dict g)))
              (pyset_add t l)).
    + apply rebind_lookup.
    + done.
    + apply lookup_insert_eq.
    + eapply Forall_impl; [exact Hall|]. intros c'.
      by rewrite (accepted_id_rebind _ _ _ _ _ _ Hg).
    + destruct (rebind_type_at σ self g (VIntSet (pyset_add t l)) bad m Hg Hm)
        as (m' & Hm' & Hty). exists m'. split; [done|congruence].
    + done.
Qed.



End BulkAdd.

Lemma add_members_all_accepted_witness :
  BaseGroup.add_members 2 [VEntry 0; VEntry 1; VEntry 0] World.σ_group
  = (Ok tt, add_each 2 [VEntry 0; VEntry 1; VEntry 0] World.σ_group)
  ∧ BaseGroup.members 2 (add_each 2 [VEntry 0; VEntry 1; VEntry 0] World.σ_group)
    = Ok (VIntSet [0; 1]%Z).
Proof.
  split; [|vm_compute; reflexivity].
  refine (proj1 (add_members_all_accepted 2 (qualname World.Token)
    [VEntry 0; VEntry 1; VEntry 0] World.σ_group (World.object_at World.σ_group 2) []
    _ _ _ _ _)); try (vm_compute; reflexivity).
  - apply NoDup_nil_2.
  - repeat constructor; vm_compute; eexists; reflexivity.
Defined.

Lemma add_members_stops_at_mismatch_witness :
  BaseGroup.add_members 2 ([VEntry 0] ++ VEntry 2 :: [VEntry 1]) World.σ_group
  = (Raise (TypeError (BaseGroup.member_type_msg World.TokenGroup (qualname World.Token)
                         World.TokenGroup)),
     add_each 2 [VEntry 0] World.σ_group)
  ∧ BaseGroup.members 2 (add_each 2 [VEntry 0] World.σ_group) = Ok (VIntSet [0%Z]).
Proof.
  split; [|vm_compute; reflexivity].
  refine (add_members_stops_at_mismatch 2 (qualname World.Token) [VEntry 0] 2 [VEntry 1]
    World.TokenGroup World.σ_group (World.object_at World.σ_group 2) [] _ _ _ _ _ _);
    try (vm_compute; reflexivity).
  - repeat constructor; vm_compute; eexists; reflexivity.
  - exists (World.object_at World.σ_group 2). split; vm_compute; reflexivity.
Defined.


(** * Groups: resolving the members, with what the container resolves *)

Section Resolving.
Context {P : Type} `{!Container P} `{!Hashing} `{!SetOrder}.
Implicit Types (σ : store P) (o g : object) (a self : addr) (p : P)
  (s acc : list (Z * value)) (ms : list Z) (resolved known : list addr).

Variable eq_items : value → value → R P bool.
Variable hash_item : value → R P Z.

Local Abbreviation comparable σ known := (can_compare eq_items hash_item σ known).

Lemma objset_find_among σ known h a s :
  comparable σ known → keys_among known s → a ∈ known →
  ∃ b, BaseGroup.objset_find eq_items h (VEntry a) s σ = Ok b.
Proof.
  intros [_ Heq] Hkeys Ha. induction s as [|[h' k] s IH]; simpl; [by exists false|].
  assert (Hkeys' : keys_among known s) by (intros e He; apply Hkeys; by right).
  case_bool_decide; [|by apply IH]. unfold_monad. unfold item_eq.
  destruct (is_ k (VEntry a)); [by exists true|].
  destruct (Hkeys (h', k)) as (a' & Ha' & Hk); [left|]. simpl in Hk. subst k.
  destruct (Heq a' a Ha' Ha) as [[] ->]; [by exists true|by apply IH].
Qed.

Lemma objset_add_among σ known a s :
  comparable σ known → keys_among known s → a ∈ known →
  ∃ s', BaseGroup.objset_add eq_items hash_item (VEntry a) s σ = Ok s'
        ∧ (∀ e, e ∈ s → e ∈ s')
        ∧ holds eq_items σ s' (VEntry a)
        ∧ (∀ e, e ∈ s' → e ∈ s ∨ e.2 = VEntry a)
        ∧ keys_among known s'.
Proof.
  intros Hcmp Hkeys Ha. destruct (proj1 Hcmp a Ha) as [h Hh].
  unfold BaseGroup.objset_add. unfold_monad. rewrite Hh.
  destruct (objset_find_among σ known h a s Hcmp Hkeys Ha) as [[] Hfind]; rewrite Hfind.
  - exists s. split; [done|]. split; [done|]. split; [|split; [by left|done]].
    destruct (objset_find_true _ _ _ _ _ Hfind) as (k & Hin & Hk). by exists h, k.
  - exists (set_place (h, VEntry a) s). split; [done|]. split; [|split; [|split]].
    + intros e He. rewrite set_place_perm. by right.
    + exists h, (VEntry a). split; [rewrite set_place_perm; left|].
      unfold item_eq. simpl. by rewrite bool_decide_eq_true_2.
    + intros e. rewrite set_place_perm. intros He.
      apply elem_of_cons in He as [->|He]; [by right|by left].
    + intros e. rewrite set_place_perm. intros He.
      apply elem_of_cons in He as [->|He]; [by exists a|by apply Hkeys].
Qed.

Lemma resolve_members_app σ self pre post acc :
  BaseGroup.resolve_members eq_items hash_item self (pre ++ post) acc σ
  = match BaseGroup.resolve_members eq_items hash_item self pre acc σ with
    | Ok acc' => BaseGroup.resolve_members eq_items hash_item self post acc' σ
    | Raise e => Raise e
    end.
Proof.
  revert acc. induction pre as [|m pre IH]; intros acc; [done|].
  simpl. unfold_monad.
  destruct (Entry.pack self σ) as [pk|]; [|done].
  destruct (receiver pk "get_entry" σ) as [l|]; [|done].
  destruct (ask_pack l (get_entry m) σ) as [e|]; [|done].
  destruct (BaseGroup.objset_add eq_items hash_item (VEntry e) acc σ) as [acc'|]; [|done].
  apply IH.
Qed.

Lemma resolve_members_among σ self g (l : addr) p known :
  entries σ !! self = Some g →
  obj_dict g !! "_Entry__pack" = Some (VPack l) → packs σ !! l = Some p →
  comparable σ known →
  ∀ ms resolved acc,
  Forall2 (fun m a => get_entry m p = Ok a) ms resolved →
  (∀ a, a ∈ resolved → a ∈ known) → keys_among known acc →
  ∃ s, BaseGroup.resolve_members eq_items hash_item self ms acc σ = Ok s
       ∧ (∀ e, e ∈ acc → e ∈ s)
       ∧ (∀ a, a ∈ resolved → holds eq_items σ s (VEntry a))
       ∧ (∀ e, e ∈ s → e ∈ acc ∨ ∃ a, a ∈ resolved ∧ e.2 = VEntry a)
       ∧ keys_among known s.
Proof.
  intros Hg Hpk Hp Hcmp. induction ms as [|m ms IH]; intros resolved acc Hres Hsub Hkeys.
  - apply Forall2_nil_inv_l in Hres as ->. exists acc.
    split; [done|]. split; [done|]. split; [|split; [by left|done]].
    intros a Ha. by apply not_elem_of_nil in Ha.
  - apply Forall2_cons_inv_l in Hres as (a & resolved' & Ha & Hres & ->).
    destruct (objset_add_among σ known a acc Hcmp Hkeys) as
      (acc' & Hadd & Hgrow & Hholds & Hnew & Hkeys'); [apply Hsub; left|].
    destruct (IH resolved' acc' Hres) as (s & Hs & Hgrow' & Hall & Hfrom & Hkeys'');
      [intros a' Ha'; apply Hsub; by right|done|].
    exists s. split; [|split; [|split; [|split; [|done]]]].
    + simpl. unfold_monad. unfold Entry.pack.
      rewrite (load_attr_Some _ _ _ _ _ Hg Hpk), (receiver_pack _ _ _ _ Hp).
      by rewrite (ask_pack_Some _ _ _ _ Hp), Ha, Hadd.
    + intros e He. by apply Hgrow', Hgrow.
    + intros a' Ha'. apply elem_of_cons in Ha' as [->|Ha']; [|by apply Hall].
      by apply (holds_mono eq_items σ acc' s).
    + intros e He. destruct (Hfrom e He) as [He'|(a' & Ha' & Hk)].
      * destruct (Hnew e He') as [|Hk]; [by left|].
        right. exists a. split; [left|done].
      * right. exists a'. split; [by right|done].
Qed.

Lemma get_members_ok σ self g (l : addr) p ms resolved :
  entries σ !! self = Some g →
  obj_dict g !! "_Entry__pack" = Some (VPack l) → packs σ !! l = Some p →
  obj_dict g !! "_members" = Some (VIntSet ms) →
  Forall2 (fun m a => get_entry m p = Ok a) ms resolved →
  comparable σ resolved →
  ∃ s, BaseGroup.get_members eq_items hash_item self σ = Ok s
       ∧ (∀ a, a ∈ resolved → holds eq_items σ s (VEntry a))
       ∧ (∀ e, e ∈ s → ∃ a, a ∈ resolved ∧ e.2 = VEntry a).
Proof.
  intros Hg Hpk Hp Hms Hres Hcmp.
  destruct (resolve_members_among σ self g l p resolved Hg Hpk Hp Hcmp ms resolved [] Hres)
    as (s & Hs & _ & Hall & Hfrom & _); [done|intros e He; by apply not_elem_of_nil in He|].
  exists s. split; [|split; [done|]].
  - unfold BaseGroup.get_members, Entry.pack, BaseGroup.members_tuple, BaseGroup.members.
    unfold_monad.
    by rewrite (load_attr_Some _ _ _ _ _ Hg Hpk), (load_attr_Some _ _ _ _ _ Hg Hms).
  - intros e He. destruct (Hfrom e He) as [Hnil|]; [|done].
    by apply not_elem_of_nil in Hnil.
Qed.

(** X16. [get_members] on an attached group whose member ids the container
    resolves to entries that can be hashed and compared: it returns a set
    that holds every one of these entries and has no other key. *)
Theorem get_members_resolves σ self g (l : addr) p ms resolved :
  entries σ !! self = Some g →
  obj_dict g !! "_Entry__pack" = Some (VPack l) → packs σ !! l = Some p →
  obj_dict g !! "_members" = Some (VIntSet ms) →
  Forall2 (fun m a => get_entry m p = Ok a) ms resolved →
  comparable σ resolved →
  ∃ s, BaseGroup.get_members eq_items hash_item self σ = Ok s
       ∧ (∀ a, a ∈ resolved → holds eq_items σ s (VEntry a))
       ∧ (∀ e, e ∈ s → ∃ a, a ∈ resolved ∧ e.2 = VEntry a).
Proof. apply get_members_ok. Qed.

(** X19. A group deserialized from a snapshot and then attached with
    [set_pack] resolves its members like the group the snapshot was taken
    from: the member ids come back with the snapshot, the container with
    [set_pack]. *)
Theorem reattached_group_resolves σ self g (l : addr) p ms resolved emb fm :
  entries σ !! self = Some g →
  obj_dict g !! "_embedding" = Some (VNdarray emb) →
  obj_dict g !! "_Entry__pack" = Some (VPack l) → packs σ !! l = Some p →
  obj_dict g !! "_Entry__field_modified" = Some fm →
  obj_dict g !! "_members" = Some (VIntSet ms) →
  Forall2 (fun m a => get_entry m p = Ok a) ms resolved →
  ∃ state, Entry.__getstate__ self σ = Ok state
    ∧ ∀ σ2,
      σ2 = (Entry.set_pack (fresh_addr σ) (VPack l)
              (deserialize (obj_type g, state) σ).2).2 →
      comparable σ2 resolved →
      BaseGroup.members (fresh_addr σ) σ2 = Ok (VIntSet ms)
      ∧ ∃ s, BaseGroup.get_members eq_items hash_item (fresh_addr σ) σ2 = Ok s
             ∧ (∀ a, a ∈ resolved → holds eq_items σ2 s (VEntry a))
             ∧ (∀ e, e ∈ s → ∃ a, a ∈ resolved ∧ e.2 = VEntry a).
Proof.
  intros Hg Hemb Hpk Hp Hfm Hms Hres.
  set (state := delete "_Entry__field_modified"
          (delete "_Entry__pack" (<["_embedding" := VFloatList emb]> (obj_dict g)))).
  assert (Hst : state !! "_embedding" = Some (VFloatList emb)).
  { unfold state. rewrite !lookup_delete_ne by done. apply lookup_insert_eq. }
  exists state. split; [by apply getstate_value with (VPack l) fm|].
  set (d2 := <["_Entry__pack" := VPack l]>
               (<["_embedding" := VNdarray emb]> state
                ∪ {["_Entry__field_modified" := VStrSet []]})).
  assert (Hσ2 : (Entry.set_pack (fresh_addr σ) (VPack l)
                   (deserialize (obj_type g, state) σ).2).2
                = Store (<[fresh_addr σ := Obj (obj_type g) d2]> (entries σ)) (packs σ)).
  { unfold deserialize. simpl. rewrite (setstate_new _ _ _ _ Hst). simpl.
    unfold Entry.set_pack, store_attr. simpl. rewrite lookup_insert_eq. simpl.
    by rewrite insert_insert_eq. }
  intros σ2 Heq Hcmp. rewrite Hσ2 in Heq. subst σ2.
  set (σ2 := Store _ _) in *.
  assert (Ho2 : entries σ2 !! fresh_addr σ = Some (Obj (obj_type g) d2))
    by apply lookup_insert_eq.
  assert (Hm2 : d2 !! "_members" = Some (VIntSet ms)).
  { unfold d2. rewrite lookup_insert_ne by done.
    rewrite lookup_union, lookup_insert_ne, lookup_singleton_ne by done.
    unfold state. rewrite !lookup_delete_ne, lookup_insert_ne by done. by rewrite Hms. }
  split; [by apply (load_attr_Some _ _ _ _ _ Ho2)|].
  apply (get_members_ok σ2 _ _ l p ms resolved Ho2);
    [apply lookup_insert_eq|exact Hp|exact Hm2|exact Hres|exact Hcmp].
Qed.

(** X17. [get_members] fails with the container's exception at the first member
    id that the container does not resolve, whatever comes after it. *)
Theorem get_members_stops_at_unresolved σ self g (l : addr) p pre resolved m post e :
  entries σ !! self = Some g →
  obj_dict g !! "_Entry__pack" = Some (VPack l) → packs σ !! l = Some p →
  obj_dict g !! "_members" = Some (VIntSet (pre ++ m :: post)) →
  Forall2 (fun m a => get_entry m p = Ok a) pre resolved →
  comparable σ resolved →
  get_entry m p = Raise e →
  BaseGroup.get_members eq_items hash_item self σ = Raise e.
Proof.
  intros Hg Hpk Hp Hms Hres Hcmp Hm.
  destruct (resolve_members_among σ self g l p resolved Hg Hpk Hp Hcmp pre resolved [] Hres)
    as (s & Hs & _); [done|intros e' He; by apply not_elem_of_nil in He|].
  unfold BaseGroup.get_members, Entry.pack, BaseGroup.members_tuple, BaseGroup.members.
  unfold_monad.
  rewrite (load_attr_Some _ _ _ _ _ Hg Hpk), (load_attr_Some _ _ _ _ _ Hg Hms).
  rewrite resolve_members_app, Hs. simpl. unfold_monad. unfold Entry.pack.
  rewrite (load_attr_Some _ _ _ _ _ Hg Hpk), (receiver_pack _ _ _ _ Hp).
  by rewrite (ask_pack_Some _ _ _ _ Hp), Hm.
Qed.

End Resolving.

Lemma get_members_resolves_witness :
  ∃ s, BaseGroup.get_members (py_eq 2) (py_hash 2) 2 World.σ_members = Ok s
       ∧ (∀ a, a ∈ [0; 1] → holds (py_eq 2) World.σ_members s (VEntry a))
       ∧ (∀ e, e ∈ s → ∃ a, a ∈ [0; 1] ∧ e.2 = VEntry a).
Proof.
  refine (get_members_resolves (py_eq 2) (py_hash 2) World.σ_members 2
           (World.object_at World.σ_members 2) World.the_pack
           (World.pack_at World.σ_members World.the_pack) [0; 1]%Z [0; 1] _ _ _ _ _ _).
  - vm_compute; reflexivity.
  - vm_compute; reflexivity.
  - vm_compute; reflexivity.
  - vm_compute; reflexivity.
  - repeat constructor; vm_compute; reflexivity.
  - split.
    + intros a Ha. repeat (apply elem_of_cons in Ha as [->|Ha]);
        [..|by apply not_elem_of_nil in Ha]; eexists; vm_compute; reflexivity.
    + intros a a' Ha Ha'.
      repeat (apply elem_of_cons in Ha as [->|Ha]); [..|by apply not_elem_of_nil in Ha];
        (repeat (apply elem_of_cons in Ha' as [->|Ha']);
         [..|by apply not_elem_of_nil in Ha']); eexists; vm_compute; reflexivity.
Defined.

Lemma get_members_stops_at_unresolved_witness :
  BaseGroup.get_members (py_eq 2) (py_hash 2) 2 Scenes.σ_stale_group
  = Raise (PackError "no entry with this id").
Proof.
  refine (get_members_stops_at_unresolved (py_eq 2) (py_hash 2) Scenes.σ_stale_group 2
           (World.object_at Scenes.σ_stale_group 2) World.the_pack
           (World.pack_at Scenes.σ_stale_group World.the_pack) [0%Z] [0] 7%Z []
           (PackError "no entry with this id") _ _ _ _ _ _ _).
  - vm_compute; reflexivity.
  - vm_compute; reflexivity.
  - vm_compute; reflexivity.
  - vm_compute; reflexivity.
  - repeat constructor; vm_compute; reflexivity.
  - split.
    + intros a Ha. repeat (apply elem_of_cons in Ha as [->|Ha]);
        [..|by apply not_elem_of_nil in Ha]; eexists; vm_compute; reflexivity.
    + intros a a' Ha Ha'.
      repeat (apply elem_of_cons in Ha as [->|Ha]); [..|by apply not_elem_of_nil in Ha];
        (repeat (apply elem_of_cons in Ha' as [->|Ha']);
         [..|by apply not_elem_of_nil in Ha']); eexists; vm_compute; reflexivity.
  - vm_compute; reflexivity.
Defined.

Lemma get_members_unattached_witness :
  BaseGroup.get_members (py_eq 2) (py_hash 2) 2 Scenes.σ_group_detached
  = Raise (ValueError "Cannot get members because group is not attached to any data pack.").
Proof.
  apply (get_members_unattached (py_eq 2) (py_hash 2) Scenes.σ_group_detached 2
           (World.object_at Scenes.σ_group_detached 2)); vm_compute; reflexivity.
Defined.

Lemma group_eq_by_members_witness :
  BaseGroup.__eq__ 9 (VEntry 10) World.σ_groups = Ok true.
Proof.
  apply (proj1 (group_eq_by_members World.σ_groups 9 10
                  (World.object_at World.σ_groups 9) (World.object_at World.σ_groups 10)
                  [0; 8]%Z [8; 0]%Z
                  ltac:(vm_compute; reflexivity) ltac:(vm_compute; reflexivity)
                  ltac:(vm_compute; reflexivity) ltac:(vm_compute; reflexivity)
                  ltac:(vm_compute; reflexivity) ltac:(by_decide) ltac:(by_decide))).
  split; [vm_compute; reflexivity|apply perm_swap].
Defined.

Lemma reattached_group_resolves_witness :
  ∃ state, Entry.__getstate__ 2 World.σ_members = Ok state
    ∧ ∀ σ2,
      σ2 = (Entry.set_pack (fresh_addr World.σ_members) (VPack World.the_pack)
              (deserialize (obj_type (World.object_at World.σ_members 2), state)
                 World.σ_members).2).2 →
      can_compare (py_eq 2) (py_hash 2) σ2 [0; 1] →
      BaseGroup.members (fresh_addr World.σ_members) σ2 = Ok (VIntSet [0; 1]%Z)
      ∧ ∃ s, BaseGroup.get_members (py_eq 2) (py_hash 2) (fresh_addr World.σ_members) σ2
             = Ok s
             ∧ (∀ a, a ∈ [0; 1] → holds (py_eq 2) σ2 s (VEntry a))
             ∧ (∀ e, e ∈ s → ∃ a, a ∈ [0; 1] ∧ e.2 = VEntry a).
Proof.
  refine (reattached_group_resolves (py_eq 2) (py_hash 2) World.σ_members 2
            (World.object_at World.σ_members 2) World.the_pack
            (World.pack_at World.σ_members World.the_pack) [0; 1]%Z [0; 1] []
            (VStrSet []) _ _ _ _ _ _ _).
  - vm_compute; reflexivity.
  - vm_compute; reflexivity.
  - vm_compute; reflexivity.
  - vm_compute; reflexivity.
  - vm_compute; reflexivity.
  - vm_compute; reflexivity.
  - repeat constructor; vm_compute; reflexivity.
Defined.

(** * Comparisons with other kinds of operands *)

Section ForeignOperands.
Context {P : Type} `{!Container P} `{!Hashing} `{!LinkImpl P}.
Implicit Types (σ : store P) (o : object) (a b self : addr).

(** X21. [Entry.__eq__] against something that is neither [None] nor an entry:
    not [False] but the interpreter's [AttributeError], the operand having
    no [tid]. *)
Theorem entry_eq_foreign σ self o t other :
  entries σ !! self = Some o → obj_dict o !! "_tid" = Some (VInt t) →
  other ≠ VNone → (∀ b, other ≠ VEntry b) →
  ∃ c, type_of other σ = Ok c
       ∧ Entry.__eq__ self other σ = Raise (AttributeError (no_attribute (ty_name c) "tid")).
Proof.
  intros Ho Ht Hnone Hentry.
  destruct other as [| | | | | | |b|]; try done;
    try (eexists; split; [reflexivity|];
         unfold Entry.__eq__, Entry.dot_tid; unfold_monad;
         by rewrite (type_of_entry _ _ _ Ho), (load_attr_Some _ _ _ _ _ Ho Ht)).
  by destruct (Hentry b).
Qed.

(** X22. A link against an entry that is no link: [BaseLink.__eq__] raises, the
    entry having no [get_parent]; the other way round [Entry.__eq__]
    returns [False]. *)
Theorem link_eq_plain_entry (eq_items : value → value → R P bool) σ a b oa ob p ch ta tb :
  entries σ !! a = Some oa → entries σ !! b = Some ob →
  issubclass (obj_type oa) BaseLink_qn = true →
  issubclass (obj_type ob) BaseLink_qn = false →
  get_parent a σ = Ok p → get_child a σ = Ok ch →
  obj_dict oa !! "_tid" = Some (VInt ta) → obj_dict ob !! "_tid" = Some (VInt tb) →
  BaseLink.__eq__ eq_items a (VEntry b) σ
  = Raise (AttributeError (no_attribute (ty_name (obj_type ob)) "get_parent"))
  ∧ Entry.__eq__ b (VEntry a) σ = Ok false.
Proof.
  intros Ha Hb Hla Hlb Hp Hch Hta Htb. split.
  - unfold BaseLink.__eq__, BaseLink.dot_get. unfold_monad.
    by rewrite (type_of_entry _ _ _ Ha), Hp, Hch, (type_of_entry _ _ _ Hb), Hlb.
  - rewrite (entry_eq_value _ _ _ _ _ _ _ Hb Ha Htb Hta).
    rewrite bool_decide_eq_false_2; [done|]. intros Hty. congruence.
Qed.

(** X23. A group against an entry that is no group: [BaseGroup.__eq__] raises,
    the entry having no [members]. *)
Theorem group_eq_plain_entry σ a b oa ob la :
  entries σ !! a = Some oa → entries σ !! b = Some ob →
  obj_dict oa !! "_members" = Some (VIntSet la) →
  issubclass (obj_type ob) BaseGroup_qn = false →
  BaseGroup.__eq__ a (VEntry b) σ
  = Raise (AttributeError (no_attribute (ty_name (obj_type ob)) "members")).
Proof.
  intros Ha Hb Hla Hgb.
  unfold BaseGroup.__eq__, BaseGroup.dot_members, BaseGroup.members_tuple, BaseGroup.members.
  unfold_monad.
  rewrite (type_of_entry _ _ _ Ha), (load_attr_Some _ _ _ _ _ Ha Hla). simpl.
  by rewrite (type_of_entry _ _ _ Hb), Hgb.
Qed.

(** X24. On entries that have ids, [Entry.__eq__] is reflexive, symmetric and
    transitive. *)
Theorem entry_eq_equivalence σ a b c oa ob oc ta tb tc :
  entries σ !! a = Some oa → entries σ !! b = Some ob → entries σ !! c = Some oc →
  obj_dict oa !! "_tid" = Some (VInt ta) → obj_dict ob !! "_tid" = Some (VInt tb) →
  obj_dict oc !! "_tid" = Some (VInt tc) →
  Entry.__eq__ a (VEntry a) σ = Ok true
  ∧ Entry.__eq__ a (VEntry b) σ = Entry.__eq__ b (VEntry a) σ
  ∧ (Entry.__eq__ a (VEntry b) σ = Ok true → Entry.__eq__ b (VEntry c) σ = Ok true →
     Entry.__eq__ a (VEntry c) σ = Ok true).
Proof.
  intros Ha Hb Hc Hta Htb Htc.
  rewrite (entry_eq_value _ _ _ _ _ _ _ Ha Ha Hta Hta).
  rewrite (entry_eq_value _ _ _ _ _ _ _ Ha Hb Hta Htb).
  rewrite (entry_eq_value _ _ _ _ _ _ _ Hb Ha Htb Hta).
  rewrite (entry_eq_value _ _ _ _ _ _ _ Hb Hc Htb Htc).
  rewrite (entry_eq_value _ _ _ _ _ _ _ Ha Hc Hta Htc).
  split; [by rewrite !bool_decide_eq_true_2|]. split.
  - f_equal. by rewrite (bool_decide_ext _ _ (symmetry_iff eq (obj_type oa) (obj_type ob))),
      (bool_decide_ext _ _ (symmetry_iff eq ta tb)).
  - intros [= Hab] [= Hbc]. f_equal.
    apply andb_true_iff in Hab as [H1 H2]. apply andb_true_iff in Hbc as [H3 H4].
    apply bool_decide_eq_true in H1, H2, H3, H4.
    rewrite !bool_decide_eq_true_2; [done|congruence..].
Qed.

End ForeignOperands.

(** * Links over base entries: the hash agrees with equality *)

Section LinkConsistency.
Context {P : Type} `{!Container P} `{!Hashing} `{!SetOrder} `{!LinkImpl P}.
Implicit Types (σ : store P) (o : object) (a b x y : addr).


Lemma py_eq_entries σ n a b :
  py_eq (S n) (VEntry a) (VEntry b) σ
  = (ca ← type_of (VEntry a);
     cb ← type_of (VEntry b);
     if reflected_first ca cb then eq_method (py_eq n) b (VEntry a)
     else eq_method (py_eq n) a (VEntry b)) σ.
Proof. reflexivity. Qed.

Lemma py_hash_entry σ m a :
  py_hash (S m) (VEntry a) σ
  = (c ← type_of (VEntry a);
     match kind_of c with
     | KLink => BaseLink.__hash__ (py_hash m) a
     | KGroup => BaseGroup.__hash__ a
     | KEntry => Entry.__hash__ a
     end) σ.
Proof. reflexivity. Qed.

Lemma py_eq_base_entries σ n x x' ox ox' tx tx' :
  base_entry σ x ox tx → base_entry σ x' ox' tx' →
  item_eq (py_eq (S n)) (VEntry x) (VEntry x') σ
  = Ok (bool_decide (x = x')
        || bool_decide (obj_type ox = obj_type ox') && bool_decide (tx = tx')).
Proof.
  intros (Hx & Hkx & Htx) (Hx' & Hkx' & Htx'). unfold item_eq, is_.
  case_bool_decide; [done|]. rewrite py_eq_entries. unfold_monad.
  rewrite (type_of_entry _ _ _ Hx), (type_of_entry _ _ _ Hx').
  unfold reflected_first. rewrite Hkx, Hkx'.
  rewrite (bool_decide_eq_true_2 (KEntry = KEntry)) by done.
  rewrite andb_false_r. unfold eq_method. unfold_monad.
  rewrite (type_of_entry _ _ _ Hx), Hkx.
  by rewrite (entry_eq_value _ _ _ _ _ _ _ Hx Hx' Htx Htx').
Qed.

Lemma py_hash_base_entry σ m x ox tx :
  base_entry σ x ox tx →
  py_hash (S m) (VEntry x) σ = Ok (hash_tuple [hash_type (obj_type ox); hash_int tx]).
Proof.
  intros (Hx & Hkx & Htx). rewrite py_hash_entry. unfold_monad.
  rewrite (type_of_entry _ _ _ Hx), Hkx. by apply entry_hash_value.
Qed.

Lemma base_entries_hash_alike σ n m x x' ox ox' tx tx' :
  base_entry σ x ox tx → base_entry σ x' ox' tx' →
  item_eq (py_eq (S n)) (VEntry x) (VEntry x') σ = Ok true →
  py_hash (S m) (VEntry x) σ = py_hash (S m) (VEntry x') σ.
Proof.
  intros Hbx Hbx' Heq.
  rewrite (py_eq_base_entries _ _ _ _ _ _ _ _ Hbx Hbx') in Heq. injection Heq as Heq.
  rewrite (py_hash_base_entry _ _ _ _ _ Hbx), (py_hash_base_entry _ _ _ _ _ Hbx').
  apply orb_true_iff in Heq as [Heq|Heq].
  - apply bool_decide_eq_true in Heq. subst x'.
    destruct Hbx as (Hx & _ & Htx), Hbx' as (Hx' & _ & Htx'). by simplify_eq.
  - apply andb_true_iff in Heq as [H1 H2]. apply bool_decide_eq_true in H1, H2.
    by rewrite H1, H2.
Qed.

(** X25. Two links whose endpoints are base entries with ids: [==] between them
    returns a truth value, and when it returns [True] the two links have
    the same hash. *)
Theorem link_hash_agrees_with_eq σ a b oa ob x y x' y' ox oy ox' oy' tx ty tx' ty' n m :
  entries σ !! a = Some oa → entries σ !! b = Some ob →
  kind_of (obj_type oa) = KLink → kind_of (obj_type ob) = KLink →
  get_parent a σ = Ok (VEntry x) → get_child a σ = Ok (VEntry y) →
  get_parent b σ = Ok (VEntry x') → get_child b σ = Ok (VEntry y') →
  base_entry σ x ox tx → base_entry σ y oy ty →
  base_entry σ x' ox' tx' → base_entry σ y' oy' ty' →
  (∃ r, py_eq (S (S n)) (VEntry a) (VEntry b) σ = Ok r)
  ∧ (py_eq (S (S n)) (VEntry a) (VEntry b) σ = Ok true →
     py_hash (S (S m)) (VEntry a) σ = py_hash (S (S m)) (VEntry b) σ).
Proof.
  intros Ha Hb Hka Hkb Hp Hch Hp' Hch' Hbx Hby Hbx' Hby'.
  assert (Heq : py_eq (S (S n)) (VEntry a) (VEntry b) σ
                = BaseLink.__eq__ (py_eq (S n)) a (VEntry b) σ).
  { rewrite py_eq_entries. unfold_monad.
    rewrite (type_of_entry _ _ _ Ha), (type_of_entry _ _ _ Hb).
    unfold reflected_first. rewrite Hka, Hkb.
    rewrite (bool_decide_eq_true_2 (KLink = KLink)) by done. rewrite andb_false_r.
    unfold eq_method. unfold_monad. by rewrite (type_of_entry _ _ _ Ha), Hka. }
  assert (Hhash : ∀ c oc, entries σ !! c = Some oc → kind_of (obj_type oc) = KLink →
            py_hash (S (S m)) (VEntry c) σ = BaseLink.__hash__ (py_hash (S m)) c σ).
  { intros c oc Hc Hkc. rewrite py_hash_entry. unfold_monad.
    by rewrite (type_of_entry _ _ _ Hc), Hkc. }
  rewrite Heq, (Hhash _ _ Ha Hka), (Hhash _ _ Hb Hkb).
  rewrite (link_eq_value _ _ _ _ _ _ _ _ _ _ Ha Hb (kind_link_issubclass _ Hkb) Hp Hch Hp' Hch').
  rewrite (link_hash_value _ _ _ _ _ _ Ha Hp Hch), (link_hash_value _ _ _ _ _ _ Hb Hp' Hch').
  pose proof (py_eq_base_entries σ n x x' _ _ _ _ Hbx Hbx') as Exx.
  pose proof (py_eq_base_entries σ n y y' _ _ _ _ Hby Hby') as Eyy.
  split.
  - destruct (bool_decide (obj_type oa = obj_type ob)); [|by exists false]. rewrite Exx.
    destruct (_ || _); [rewrite Eyy|]; eexists; reflexivity.
  - destruct (bool_decide (obj_type oa = obj_type ob)) eqn:Hty; [|done].
    apply bool_decide_eq_true in Hty.
    destruct (item_eq (py_eq (S n)) (VEntry x) (VEntry x') σ) as [[]|] eqn:Hxx; [|done..].
    intros Hyy.
    rewrite (base_entries_hash_alike _ _ m _ _ _ _ _ _ Hbx Hbx' Hxx).
    rewrite (base_entries_hash_alike _ _ m _ _ _ _ _ _ Hby Hby' Hyy).
    by rewrite Hty.
Qed.

End LinkConsistency.

Lemma entry_eq_foreign_witness :
  ∃ c, type_of (VInt 3) World.σ_tokens = Ok c
       ∧ Entry.__eq__ 0 (VInt 3) World.σ_tokens
         = Raise (AttributeError (no_attribute (ty_name c) "tid")).
Proof.
  refine (entry_eq_foreign World.σ_tokens 0 (World.object_at World.σ_tokens 0) 0 (VInt 3)
            _ _ _ _).
  - vm_compute; reflexivity.
  - vm_compute; reflexivity.
  - discriminate.
  - intros b. discriminate.
Defined.

Lemma link_eq_plain_entry_witness :
  BaseLink.__eq__ (py_eq 2) 2 (VEntry 0) World.σ_links
  = Raise (AttributeError "'Token' object has no attribute 'get_parent'")
  ∧ Entry.__eq__ 0 (VEntry 2) World.σ_links = Ok false.
Proof.
  refine (link_eq_plain_entry (py_eq 2) World.σ_links 2 0
            (World.object_at World.σ_links 2) (World.object_at World.σ_links 0)
            (VEntry 0) (VEntry 1) 2 0 _ _ _ _ _ _ _ _); vm_compute; reflexivity.
Defined.

Lemma group_eq_plain_entry_witness :
  BaseGroup.__eq__ 2 (VEntry 0) World.σ_members
  = Raise (AttributeError "'Token' object has no attribute 'members'").
Proof.
  refine (group_eq_plain_entry World.σ_members 2 0
            (World.object_at World.σ_members 2) (World.object_at World.σ_members 0)
            [0; 1]%Z _ _ _ _); vm_compute; reflexivity.
Defined.

Lemma entry_eq_equivalence_witness :
  Entry.__eq__ 0 (VEntry 0) World.σ_tokens = Ok true
  ∧ Entry.__eq__ 0 (VEntry 1) World.σ_tokens = Entry.__eq__ 1 (VEntry 0) World.σ_tokens
  ∧ (Entry.__eq__ 0 (VEntry 1) World.σ_tokens = Ok true →
     Entry.__eq__ 1 (VEntry 0) World.σ_tokens = Ok true →
     Entry.__eq__ 0 (VEntry 0) World.σ_tokens = Ok true).
Proof.
  refine (entry_eq_equivalence World.σ_tokens 0 1 0
            (World.object_at World.σ_tokens 0) (World.object_at World.σ_tokens 1)
            (World.object_at World.σ_tokens 0) 0 1 0 _ _ _ _ _ _); vm_compute; reflexivity.
Defined.

Lemma link_hash_agrees_with_eq_witness :
  (∃ r, py_eq 2 (VEntry 2) (VEntry 3) World.σ_links = Ok r)
  ∧ (py_eq 2 (VEntry 2) (VEntry 3) World.σ_links = Ok true →
     py_hash 2 (VEntry 2) World.σ_links = py_hash 2 (VEntry 3) World.σ_links).
Proof.
  refine (link_hash_agrees_with_eq World.σ_links 2 3
            (World.object_at World.σ_links 2) (World.object_at World.σ_links 3)
            0 1 0 1
            (World.object_at World.σ_links 0) (World.object_at World.σ_links 1)
            (World.object_at World.σ_links 0) (World.object_at World.σ_links 1)
            0 1 0 1 0 0 _ _ _ _ _ _ _ _ _ _ _ _);
    first [vm_compute; reflexivity | repeat split; vm_compute; reflexivity].
Defined.
